(** * The assistant's tool functions (src/tools.py), embedded and verified

    The six tools of [tools.py] are embedded as functions in a small
    state-and-exception monad.  Python values keep the shape the code gives
    them: a [str] is a list of Unicode code points, the environment is a
    finite map, a decoded JSON body is a tree whose objects are finite maps,
    an exception is a value carrying its class ancestry and its text.

    What the remote services, the mail server, the clock and the file system
    answer is not decided by the program: it is read from a [World], over
    which every theorem quantifies.  What the program does to the outside is
    recorded in a [State]: the trace of calls it issued and the files it
    wrote.  Calls to [logging] only feed the process log and are left out. *)

From Stdlib Require Import ZArith NArith List Ascii String Decimal DecimalString Lia Bool.
From stdpp Require Import gmap strings list.

Local Open Scope Z_scope.
Local Set Warnings "-register-all".

(** ** Python strings *)

(** A [str] is a sequence of code points; [len] counts code points. *)
Abbreviation pystr := (list N) (only parsing).

(** An ASCII literal of the source, as a [str]. *)
Definition py (s : string) : pystr :=
  List.map N_of_ascii (list_ascii_of_string s).

(** The double quote, which the literals below splice in where the source
    has one inside an f-string. *)
Definition DQ : pystr := [34%N].

(** The pictographs of the source's messages. *)
Definition CROSS_MARK : pystr := [0x274C%N].
Definition CHECK_MARK : pystr := [0x2705%N].
Definition FILE_FOLDER : pystr := [0x1F4C1%N].
Definition FRAMED_PICTURE : pystr := [0x1F5BC%N; 0xFE0F%N].
Definition DOWN_ARROW : pystr := [0x2B07%N].
Definition WARNING_SIGN : pystr := [0x26A0%N; 0xFE0F%N].

(** [str.isspace] on one code point: the characters [str.strip()] removes. *)
Definition py_isspace (c : N) : bool :=
  ((0x09 <=? c) && (c <=? 0x0D) || (0x1C <=? c) && (c <=? 0x20)
   || (c =? 0x85) || (c =? 0xA0) || (c =? 0x1680)
   || (0x2000 <=? c) && (c <=? 0x200A)
   || (c =? 0x2028) || (c =? 0x2029) || (c =? 0x202F)
   || (c =? 0x205F) || (c =? 0x3000))%N.

Fixpoint lstrip (s : pystr) : pystr :=
  match s with
  | c :: s' => if py_isspace c then lstrip s' else s
  | [] => []
  end.

Definition rstrip (s : pystr) : pystr := rev (lstrip (rev s)).

(** [s.strip()] *)
Definition strip (s : pystr) : pystr := rstrip (lstrip s).

(** [len(s)] *)
Definition len (s : pystr) : Z := Z.of_nat (length s).

(** [not s] for a string, and for an optional string ([None] is falsy). *)
Definition falsy (s : pystr) : bool :=
  match s with [] => true | _ => false end.

Definition falsy_opt (o : option pystr) : bool :=
  match o with None => true | Some s => falsy s end.

(** [s.startswith(p)] and [p in s] *)
Fixpoint startswith (s p : pystr) {struct p} : bool :=
  match p, s with
  | [], _ => true
  | a :: p', b :: s' => (a =? b)%N && startswith s' p'
  | _ :: _, [] => false
  end.

Fixpoint contains (s p : pystr) : bool :=
  startswith s p ||
  match s with
  | [] => false
  | _ :: s' => contains s' p
  end.

(** [str(n)] for an integer. *)
Definition str_of_int (n : Z) : pystr :=
  py (NilZero.string_of_int (Z.to_int n)).

(** ** Exceptions *)

(** An instance of (a subclass of) [Exception]: the names of its class
    and of that class's bases below [Exception], and [str(e)]. *)
Record exn := { exn_mro : list string; exn_str : pystr }.

(** [isinstance(e, cls)] *)
Definition isinstance (e : exn) (cls : string) : bool :=
  String.eqb cls "Exception" || existsb (String.eqb cls) (exn_mro e).

(** ** The monad of a tool's body *)

Inductive result (A : Type) : Type :=
  | Ok (a : A)
  | Raise (e : exn).
Arguments Ok {A} a.
Arguments Raise {A} e.

Section Monad.
Context {S : Type}.

Definition M (A : Type) : Type := S -> result A * S.

Definition ret {A} (a : A) : M A := fun s => (Ok a, s).

Definition raise {A} (e : exn) : M A := fun s => (Raise e, s).

Definition bind {A B} (m : M A) (k : A -> M B) : M B :=
  fun s =>
    match m s with
    | (Ok a, s') => k a s'
    | (Raise e, s') => (Raise e, s')
    end.

(** The [except] clauses of a [try], tried in order; with none left the
    exception goes on to the caller. *)
Fixpoint dispatch {A} (handlers : list (string * (exn -> M A))) (e : exn) : M A :=
  match handlers with
  | [] => raise e
  | (cls, h) :: rest => if isinstance e cls then h e else dispatch rest e
  end.

(** [try: body  except cls1 as e: h1  except cls2 as e: h2 ...].  What the
    body did before it raised stays done. *)
Definition try_except {A} (body : M A) (handlers : list (string * (exn -> M A))) : M A :=
  fun s =>
    match body s with
    | (Ok a, s') => (Ok a, s')
    | (Raise e, s') => dispatch handlers e s'
    end.
End Monad.
Arguments M : clear implicits.

Notation "'do' x <- m ; k" := (bind m (fun x => k))
  (at level 10, x name, m at level 99, k at level 200).
Notation "'do_' m ; k" := (bind m (fun _ => k))
  (at level 10, m at level 99, k at level 200).


(** Lifting a computation that touches nothing. *)
Definition lift {S A} (r : result A) : M S A := fun s => (r, s).

(** ** Values the tools receive from outside *)

(** A decoded JSON document, as [response.json()] returns it.  A number
    with a fraction or an exponent is kept as its literal: the tools never
    compute with one. *)
Inductive jvalue :=
  | JNull
  | JBool (b : bool)
  | JInt (n : Z)
  | JFloat (literal : pystr)
  | JStr (s : pystr)
  | JList (l : list jvalue)
  | JObject (m : gmap (list N) jvalue).

Definition type_name (v : jvalue) : string :=
  match v with
  | JNull => "NoneType"
  | JBool _ => "bool"
  | JInt _ => "int"
  | JFloat _ => "float"
  | JStr _ => "str"
  | JList _ => "list"
  | JObject _ => "dict"
  end.

(** The exceptions the interpreter raises while the tools take a decoded
    document apart (texts as CPython 3.11 words them). *)
Definition KeyError (shown : pystr) : exn :=
  {| exn_mro := ["KeyError"; "LookupError"]; exn_str := shown |}.
Definition IndexError (what : string) : exn :=
  {| exn_mro := ["IndexError"; "LookupError"];
     exn_str := py what ++ py " index out of range" |}.
Definition TypeError (text : pystr) : exn :=
  {| exn_mro := ["TypeError"]; exn_str := text |}.
Definition AttributeError (v : jvalue) (attr : string) : exn :=
  {| exn_mro := ["AttributeError"];
     exn_str := py "'" ++ py (type_name v) ++ py "' object has no attribute '"
                ++ py attr ++ py "'" |}.
Definition not_subscriptable (v : jvalue) : exn :=
  TypeError (py "'" ++ py (type_name v) ++ py "' object is not subscriptable").

(** [v[key]] for a string key. *)
Definition getitem_key (v : jvalue) (key : string) : result jvalue :=
  match v with
  | JObject m =>
      match m !! py key with
      | Some x => Ok x
      | None => Raise (KeyError (py "'" ++ py key ++ py "'"))
      end
  | JList _ => Raise (TypeError (py "list indices must be integers or slices, not str"))
  | JStr _ => Raise (TypeError (py "string indices must be integers, not 'str'"))
  | _ => Raise (not_subscriptable v)
  end.

(** [v[0]] *)
Definition getitem_0 (v : jvalue) : result jvalue :=
  match v with
  | JList (x :: _) => Ok x
  | JList [] => Raise (IndexError "list")
  | JStr (c :: _) => Ok (JStr [c])
  | JStr [] => Raise (IndexError "string")
  | JObject _ => Raise (KeyError (py "0"))
  | _ => Raise (not_subscriptable v)
  end.

(** [v.strip()] *)
Definition method_strip (v : jvalue) : result pystr :=
  match v with
  | JStr s => Ok (strip s)
  | _ => Raise (AttributeError v "strip")
  end.

(** A [requests.Response], as far as the tools look at it: two attributes
    and what its two methods do when called. *)
Record Response := {
  status_code : Z;
  text : pystr;
  raise_for_status : option exn;   (* [None]: returns normally *)
  json : result jvalue
}.

(** The [requests] call a tool issues. *)
Inductive http_method := GET | POST.

Record chat_message := { role : pystr; content : pystr }.

(** The [payload] dictionary handed to [json.dumps]. *)
Record chat_payload := { model : pystr; messages : list chat_message }.

Record http_request := {
  req_method : http_method;
  req_url : pystr;
  req_headers : list (pystr * pystr);
  req_data : option chat_payload;
  req_timeout : option Z
}.

(** The mail session: the [smtplib] calls, in the order of the source. *)
Record mime_message := {
  mime_headers : list (pystr * pystr);
  mime_attached : list (pystr * pystr)   (* subtype, text *)
}.

Inductive smtp_call :=
  | SMTP (host : pystr) (port : Z)
  | starttls
  | login (user password : pystr)
  | sendmail (from_addr : pystr) (to_addrs : list pystr) (msg : mime_message)
  | quit.

(** The image service, through its client library. *)
Record together_client := { api_key : pystr; client_timeout : option Z }.

Record image_request := {
  img_prompt : pystr;
  img_model : pystr;
  img_steps : Z;
  img_n : Z;
  img_height : Z;
  img_width : Z
}.

(** An item of [response.data]: [getattr(item, name, None)] for the two
    attributes the tool reads. *)
Record image_item := { b64_json : option pystr; url : option pystr }.

(** [response.data]; [None] stands for a missing attribute as well as for
    an attribute that is [None]. *)
Record ImageResponse := { data : option (list image_item) }.

Record datetime := {
  year : Z; month : Z; day : Z; hour : Z; minute : Z; second : Z
}.

(** ** The world and the effects *)

Record World := {
  (** [os.environ] *)
  environ : gmap string (list N);
  (** [pathlib.Path.home()] *)
  home : pystr;
  (** [datetime.now()] *)
  now : datetime;
  (** what [requests.get] and [requests.post] come back with *)
  http_reply : http_request -> result Response;
  (** the exception a mail call ends in, if any *)
  smtp_reply : smtp_call -> option exn;
  (** what [client.images.generate] comes back with; [Ok None] is a
      falsy response *)
  images_reply : together_client -> image_request -> result (option ImageResponse);
  (** the exception [os.makedirs], [open] and [f.write] end in, if any *)
  makedirs_reply : pystr -> option exn;
  open_reply : pystr -> option exn;
  write_reply : pystr -> list Byte.byte -> option exn
}.

(** What a tool does to the outside, in order. *)
Inductive event :=
  | HttpRequest (r : http_request)
  | SmtpCall (c : smtp_call)
  | ImagesGenerate (c : together_client) (r : image_request)
  | Makedirs (path : pystr) (exist_ok : bool)
  | OpenWb (path : pystr)
  | WriteBytes (path : pystr) (content : list Byte.byte).

Record State := {
  trace : list event;                       (* oldest first *)
  files : gmap (list N) (list Byte.byte)    (* path to content *)
}.

Definition record (e : event) (s : State) : State :=
  {| trace := trace s ++ [e]; files := files s |}.

Definition store (path : pystr) (content : list Byte.byte) (s : State) : State :=
  {| trace := trace s; files := <[path := content]> (files s) |}.

Definition of_option (o : option exn) : result unit :=
  match o with None => Ok tt | Some e => Raise e end.

(** [os.getenv(name)] *)
Definition getenv (w : World) (name : string) : option pystr :=
  environ w !! name.

(** [requests.get(url)] *)
Definition requests_get (w : World) (url : pystr) : M State Response :=
  let r := {| req_method := GET; req_url := url; req_headers := [];
              req_data := None; req_timeout := None |} in
  fun s => (http_reply w r, record (HttpRequest r) s).

(** [requests.post(url, headers=headers, data=json.dumps(payload), timeout=timeout)] *)
Definition requests_post (w : World) (url : pystr) (headers : list (pystr * pystr))
    (payload : chat_payload) (timeout : option Z) : M State Response :=
  let r := {| req_method := POST; req_url := url; req_headers := headers;
              req_data := Some payload; req_timeout := timeout |} in
  fun s => (http_reply w r, record (HttpRequest r) s).

(** One call on the mail session. *)
Definition smtp (w : World) (c : smtp_call) : M State unit :=
  fun s => (of_option (smtp_reply w c), record (SmtpCall c) s).

(** [client.images.generate(...)] *)
Definition images_generate (w : World) (c : together_client) (r : image_request)
    : M State (option ImageResponse) :=
  fun s => (images_reply w c r, record (ImagesGenerate c r) s).

(** [os.makedirs(path, exist_ok=True)] *)
Definition makedirs (w : World) (path : pystr) : M State unit :=
  fun s => (of_option (makedirs_reply w path), record (Makedirs path true) s).

(** [open(path, "wb")]: the file is created or emptied, unless the call
    fails. *)
Definition open_wb (w : World) (path : pystr) : M State unit :=
  fun s =>
    match open_reply w path with
    | None => (Ok tt, store path [] (record (OpenWb path) s))
    | Some e => (Raise e, record (OpenWb path) s)
    end.

(** [f.write(content)] *)
Definition write (w : World) (path : pystr) (content : list Byte.byte) : M State unit :=
  fun s =>
    match write_reply w path content with
    | None => (Ok tt, store path content (record (WriteBytes path content) s))
    | Some e => (Raise e, record (WriteBytes path content) s)
    end.

(** ** Library functions the tools call *)

(** [os.path.join(a, b)] on a POSIX system. *)
Definition path_join (a b : pystr) : pystr :=
  if startswith b (py "/") then b
  else if falsy a || startswith (rev a) (py "/") then a ++ b
  else a ++ py "/" ++ b.

(** The [width] low decimal digits of [n], most significant first. *)
Fixpoint zero_padded (width : nat) (n : Z) : pystr :=
  match width with
  | O => []
  | S k => zero_padded k (n / 10) ++ [Z.to_N (48 + n mod 10)]
  end.

(** One [strftime] directive: the year on four digits, the other fields on
    two. *)
Definition directive (c : N) (t : datetime) : pystr :=
  if (c =? 89)%N then zero_padded 4 (year t)          (* %Y *)
  else if (c =? 109)%N then zero_padded 2 (month t)   (* %m *)
  else if (c =? 100)%N then zero_padded 2 (day t)     (* %d *)
  else if (c =? 72)%N then zero_padded 2 (hour t)     (* %H *)
  else if (c =? 77)%N then zero_padded 2 (minute t)   (* %M *)
  else if (c =? 83)%N then zero_padded 2 (second t)   (* %S *)
  else [37%N; c].

(** [t.strftime(fmt)] for formats made of those directives and plain text. *)
Fixpoint strftime (t : datetime) (fmt : pystr) : pystr :=
  match fmt with
  | 37%N :: c :: rest => directive c t ++ strftime t rest
  | c :: rest => c :: strftime t rest
  | [] => []
  end.

(** ** The tools *)

(** What a call hands back to the runtime: a string, or [None] when the
    body runs off its end. *)
Inductive retval :=
  | Str (s : pystr)
  | PyNone.

(** The string behind a truthy optional value. *)
Definition the (o : option pystr) : pystr := default [] o.

Definition get_weather (w : World) (city : pystr) : M State retval :=
  try_except
    (do response <- requests_get w (py "https://wttr.in/" ++ city ++ py "?format=3");
     if status_code response =? 200 then
       ret (Str (strip (text response)))
     else
       ret (Str (py "Could not retrieve weather for " ++ city ++ py ".")))
    [("Exception"%string, fun e =>
       ret (Str (py "An error occurred while retrieving weather for " ++ city ++ py ".")))].

(** [data["choices"][0]["message"]["content"].strip()] *)
Definition first_choice_content {S} (d : jvalue) : M S pystr :=
  do choices <- lift (getitem_key d "choices");
  do choice <- lift (getitem_0 choices);
  do message <- lift (getitem_key choice "message");
  do content <- lift (getitem_key message "content");
  lift (method_strip content).

(** [response.raise_for_status()] and [response.json()] *)
Definition call_raise_for_status {S} (r : Response) : M S unit :=
  lift (of_option (raise_for_status r)).

Definition call_json {S} (r : Response) : M S jvalue := lift (json r).

Definition search_web (w : World) (query : pystr) : M State retval :=
  try_except
    (let api_key := getenv w "OPENROUTER_API_KEY" in
     if falsy_opt api_key then
       ret (Str (py "OpenRouter API key not found. Please check your .env file."))
     else
       let headers :=
         [(py "Authorization", py "Bearer " ++ the api_key);
          (py "Content-Type", py "application/json")] in
       let payload :=
         {| model := py "tngtech/deepseek-r1t-chimera:free";
            messages := [{| role := py "user"; content := query |}] |} in
       do response <- requests_post w (py "https://openrouter.ai/api/v1/chat/completions")
                        headers payload None;
       do_ call_raise_for_status response;
       do data <- call_json response;
       do answer <- first_choice_content data;
       ret (Str answer))
    [("Exception"%string, fun e =>
       ret (Str (py "Error talking to OpenRouter AI: " ++ exn_str e)))].

Definition send_email (w : World) (to_email subject message : pystr)
    (cc_email : option pystr) : M State retval :=
  try_except
    (let smtp_server := py "smtp.gmail.com" in
     let smtp_port := 587 in
     let gmail_user := getenv w "GMAIL_USER" in
     let gmail_password := getenv w "GMAIL_APP_PASSWORD" in
     if falsy_opt gmail_user || falsy_opt gmail_password then
       ret (Str (py "Email sending failed: Gmail credentials not configured."))
     else
       let headers :=
         [(py "From", the gmail_user); (py "To", to_email); (py "Subject", subject)] in
       let recipients := [to_email] in
       let headers :=
         if falsy_opt cc_email then headers else headers ++ [(py "Cc", the cc_email)] in
       let recipients :=
         if falsy_opt cc_email then recipients else recipients ++ [the cc_email] in
       let msg :=
         {| mime_headers := headers; mime_attached := [(py "plain", message)] |} in
       do_ smtp w (SMTP smtp_server smtp_port);
       do_ smtp w starttls;
       do_ smtp w (login (the gmail_user) (the gmail_password));
       do_ smtp w (sendmail (the gmail_user) recipients msg);
       do_ smtp w quit;
       ret (Str (py "Email sent successfully to " ++ to_email)))
    [("SMTPAuthenticationError"%string, fun _ =>
       ret (Str (py "Email sending failed: Authentication error. Please check your Gmail credentials.")));
     ("SMTPException"%string, fun e =>
       ret (Str (py "Email sending failed: SMTP error - " ++ exn_str e)));
     ("Exception"%string, fun e =>
       ret (Str (py "An error occurred while sending email: " ++ exn_str e)))].

(** The [style] attributes of the two HTML elements of the image tool's
    answer. *)
Definition IMG_STYLE : pystr := py "max-width:100%; border-radius:12px;".
Definition LINK_STYLE : pystr :=
  py "display:inline-block;margin-top:10px;padding:8px 12px;background-color:#007bff;color:white;border-radius:6px;text-decoration:none;".

Section ImageTool.
(** [base64.b64decode], of the interpreter's library: the bytes a text
    decodes to, or the exception it raises on one that is not base64. *)
Variable b64decode : pystr -> result (list Byte.byte).

Definition generate_ai_image (w : World) (prompt : pystr) : M State retval :=
  try_except
    (if falsy prompt || (len (strip prompt) <? 3) then
       ret (Str (CROSS_MARK ++ py " Please provide a clear description of the image you want."))
     else
       let api_key := getenv w "TOGETHER_API_KEY" in
       if falsy_opt api_key then
         ret (Str (CROSS_MARK ++ py " Together AI API key not found. Please check your .env file."))
       else
         let client := {| api_key := the api_key; client_timeout := None |} in
         do response <- images_generate w client
                          {| img_prompt := strip prompt;
                             img_model := py "black-forest-labs/FLUX.1-schnell-Free";
                             img_steps := 4; img_n := 1;
                             img_height := 1024; img_width := 1024 |};
         match response with
         | Some {| data := Some (image_info :: _) |} =>
             (* the response is truthy and [response.data] is a non-empty
                list: [image_info = response.data[0]] *)
             let image_base64 := b64_json image_info in
             let image_url := url image_info in
             if falsy_opt image_base64 && falsy_opt image_url then
               ret (Str (CROSS_MARK ++ py " Image generation failed: no usable output."))
             else if negb (falsy_opt image_base64) then
               do image_bytes <- lift (b64decode (the image_base64));
               let pictures_folder := path_join (home w) (py "Pictures") in
               do_ makedirs w pictures_folder;
               let timestamp := strftime (now w) (py "%Y%m%d_%H%M%S") in
               let image_path :=
                 path_join pictures_folder (py "ai_image_" ++ timestamp ++ py ".png") in
               do_ open_wb w image_path;
               do_ write w image_path image_bytes;
               let data_url := py "data:image/png;base64," ++ the image_base64 in
               ret (Str (CHECK_MARK ++ py " Image generated successfully!<br>"
                         ++ FILE_FOLDER ++ py " Saved to: `" ++ image_path ++ py "`<br>"
                         ++ FRAMED_PICTURE ++ py " Preview:<br>"
                         ++ py "<img src=" ++ DQ ++ data_url ++ DQ
                         ++ py " alt=" ++ DQ ++ prompt ++ DQ
                         ++ py " style=" ++ DQ ++ IMG_STYLE ++ DQ ++ py "/><br>"
                         ++ py "<a href=" ++ DQ ++ data_url ++ DQ
                         ++ py " download=" ++ DQ ++ py "ai_image.png" ++ DQ
                         ++ py " style=" ++ DQ ++ LINK_STYLE ++ DQ ++ py ">"
                         ++ DOWN_ARROW ++ py " Download Image</a>"))
             else if negb (falsy_opt image_url) then
               ret (Str (CHECK_MARK ++ py " Image generated successfully via URL!<br>"
                         ++ FRAMED_PICTURE ++ py " Preview:<br>"
                         ++ py "<img src=" ++ DQ ++ the image_url ++ DQ
                         ++ py " alt=" ++ DQ ++ prompt ++ DQ
                         ++ py " style=" ++ DQ ++ IMG_STYLE ++ DQ ++ py "/><br>"
                         ++ py "<a href=" ++ DQ ++ the image_url ++ DQ
                         ++ py " download=" ++ DQ ++ py "ai_image.png" ++ DQ
                         ++ py " style=" ++ DQ ++ LINK_STYLE ++ DQ ++ py ">"
                         ++ DOWN_ARROW ++ py " Download Image</a>"))
             else
               (* neither branch of the [if]/[elif] taken: the body ends *)
               ret PyNone
         | _ =>
             (* [not response or not hasattr(response, "data") or not response.data] *)
             ret (Str (CROSS_MARK ++ py " No image data was returned. Try a different prompt."))
         end)
    [("Exception"%string, fun e =>
       ret (Str (WARNING_SIGN ++ py " Image generation failed: " ++ exn_str e)))].
End ImageTool.

Definition generate_code (w : World) (prompt : pystr) : M State retval :=
  try_except
    (let api_key := getenv w "OPENROUTER_API_KEY" in
     if falsy_opt api_key then
       ret (Str (CROSS_MARK ++ py " Missing OpenRouter API key. Please check your .env file."))
     else
       let headers :=
         [(py "Authorization", py "Bearer " ++ the api_key);
          (py "Content-Type", py "application/json");
          (py "HTTP-Referer", py "https://your-site.com");
          (py "X-Title", py "MiaAssistant")] in
       let payload :=
         {| model := py "deepseek/deepseek-r1-0528:free";
            messages :=
              [{| role := py "system";
                  content := py "You are a professional senior software engineer. Write complete, well-documented code for the task." |};
               {| role := py "user"; content := prompt |}] |} in
       do response <- requests_post w (py "https://openrouter.ai/api/v1/chat/completions")
                        headers payload (Some 30);
       do_ call_raise_for_status response;
       do result <- call_json response;
       do answer <- first_choice_content result;
       ret (Str answer))
    [("Exception"%string, fun e =>
       ret (Str (CROSS_MARK ++ py " Code generation failed: " ++ exn_str e)))].

Definition write_essay (w : World) (topic : pystr) (words : Z) : M State retval :=
  try_except
    (let api_key := getenv w "OPENROUTER_API_KEY" in
     if falsy_opt api_key then
       ret (Str (CROSS_MARK ++ py " OpenRouter API key is missing. Please check your .env file."))
     else
       let headers :=
         [(py "Authorization", py "Bearer " ++ the api_key);
          (py "Content-Type", py "application/json");
          (py "HTTP-Referer", py "https://your-site.com");
          (py "X-Title", py "MiaAssistant")] in
       let system_prompt :=
         py "You are a professional academic writer. Write an original, human-sounding essay "
         ++ py "on the topic provided. Avoid robotic phrasing, vary sentence structures, "
         ++ py "and use natural transitions. Target a length of " ++ str_of_int words ++ py " words. "
         ++ py "The tone should mimic a well-read human student or journalist." in
       let user_prompt := py "Write an essay on: " ++ topic in
       let payload :=
         {| model := py "mistralai/mixtral-8x7b-instruct";
            messages :=
              [{| role := py "system"; content := system_prompt |};
               {| role := py "user"; content := user_prompt |}] |} in
       do response <- requests_post w (py "https://openrouter.ai/api/v1/chat/completions")
                        headers payload None;
       do_ call_raise_for_status response;
       do result <- call_json response;
       do answer <- first_choice_content result;
       ret (Str answer))
    [("Exception"%string, fun e =>
       ret (Str (CROSS_MARK ++ py " Essay generation failed: " ++ exn_str e)))].

(** ** The tool set registered with the runtime (src/agent.py) *)

(** A call the runtime makes: one of the six registered tools with its
    arguments; [words] left out takes the default of the signature. *)
Inductive tool_call :=
  | call_get_weather (city : pystr)
  | call_search_web (query : pystr)
  | call_send_email (to_email subject message : pystr) (cc_email : option pystr)
  | call_generate_ai_image (prompt : pystr)
  | call_generate_code (prompt : pystr)
  | call_write_essay (topic : pystr) (words : option Z).

Definition run_tool (b64decode : pystr -> result (list Byte.byte)) (w : World)
    (c : tool_call) : M State retval :=
  match c with
  | call_get_weather city => get_weather w city
  | call_search_web query => search_web w query
  | call_send_email to_email subject message cc_email =>
      send_email w to_email subject message cc_email
  | call_generate_ai_image prompt => generate_ai_image b64decode w prompt
  | call_generate_code prompt => generate_code w prompt
  | call_write_essay topic words => write_essay w topic (default 500 words)
  end.


(** * The agent (src/agent.py, src/prompts.py) *)




(** The six functions handed to the runtime as [tools]. *)
Inductive registered_tool :=
  | tool_get_weather
  | tool_search_web
  | tool_send_email
  | tool_generate_ai_image
  | tool_generate_code
  | tool_write_essay.

(** [google.beta.realtime.RealtimeModel(voice=..., temperature=...)]; the
    temperature is kept as its literal. *)
Record RealtimeModel := { voice : pystr; temperature : pystr }.

Record Agent := {
  instructions : pystr;
  llm : RealtimeModel;
  tools : list registered_tool
}.


Inductive noise_filter := BVC.

Record RoomInputOptions := {
  video_enabled : bool;
  noise_cancellation : noise_filter
}.

(** What [entrypoint] awaits from the runtime: [ctx.connect()],
    [session.start(room=ctx.room, agent=..., room_input_options=...)] and
    [session.generate_reply(instructions=...)]. *)
Inductive runtime_call :=
  | connect
  | session_start (agent : Agent) (room_input_options : RoomInputOptions)
  | generate_reply (reply_instructions : pystr).


Arguments py : simpl never.
Arguments strip : simpl never.
Arguments strftime : simpl never.
Arguments path_join : simpl never.
Arguments str_of_int : simpl never.

(** ** Specification vocabulary *)

(** The events a run of [m] from [s] adds to the trace. *)
Definition issued {A} (m : M State A) (s : State) : list event :=
  drop (length (trace s)) (trace (snd (m s))).

(** The request [get_weather] is expected to send. *)
Definition weather_request (city : pystr) : http_request :=
  {| req_method := GET;
     req_url := py "https://wttr.in/" ++ city ++ py "?format=3";
     req_headers := []; req_data := None; req_timeout := None |}.

(** A body that, from any state, either hands back a string or raises:
    it never ends in [None]. *)
Definition string_or_raise (m : M State retval) : Prop :=
  forall s, (exists t s', m s = (Ok (Str t), s')) \/ (exists e s', m s = (Raise e, s')).

(** A computation that hands back a string from any state. *)
Definition returns_string (m : M State retval) : Prop :=
  forall s, exists t s', m s = (Ok (Str t), s').

(** The environment variables a tool reads its credentials from. *)
Definition required_credentials (c : tool_call) : list string :=
  match c with
  | call_get_weather _ => []
  | call_search_web _ | call_generate_code _ | call_write_essay _ _ =>
      ["OPENROUTER_API_KEY"]
  | call_send_email _ _ _ _ => ["GMAIL_USER"; "GMAIL_APP_PASSWORD"]
  | call_generate_ai_image _ => ["TOGETHER_API_KEY"]
  end%string.

(** A message speaks of credentials or configuration when it has one of
    these phrases. *)
Definition credential_phrases : list pystr :=
  [py "API key"; py "credential"; py "configured"; py ".env"; py "password"].

Definition mentions_credential (answer : pystr) : bool :=
  existsb (contains answer) credential_phrases.

(** The check [generate_ai_image] makes on its prompt before anything
    else; the other tools take any argument. *)
Definition prompt_accepted (c : tool_call) : bool :=
  match c with
  | call_generate_ai_image prompt => negb (falsy prompt || (len (strip prompt) <? 3))
  | _ => true
  end.

(** The endpoint of the three completion tools. *)
Definition COMPLETIONS_URL : pystr := py "https://openrouter.ai/api/v1/chat/completions".

(** A decoded body of the shape [{choices: [{message: {content}}, ...]}]
    whose first choice's message has the string [answer] as content.  The
    objects may hold other keys, and other choices may follow. *)
Definition completion_body (d : jvalue) (answer : pystr) : Prop :=
  exists (body first message : gmap (list N) jvalue) (others : list jvalue),
    d = JObject body
    /\ body !! py "choices" = Some (JList (JObject first :: others))
    /\ first !! py "message" = Some (JObject message)
    /\ message !! py "content" = Some (JStr answer).

(** The completion endpoint answers every POST with [response]. *)
Definition completions_answer (w : World) (response : Response) : Prop :=
  forall r, req_method r = POST -> req_url r = COMPLETIONS_URL ->
            http_reply w r = Ok response.

(** The call [generate_ai_image] is expected to make with the key [key]:
    the stripped prompt, the fixed model, 4 steps, one image of 1024x1024,
    through a client built from the key alone. *)
Definition image_client (key : pystr) : together_client :=
  {| api_key := key; client_timeout := None |}.

Definition image_order (prompt : pystr) : image_request :=
  {| img_prompt := strip prompt;
     img_model := py "black-forest-labs/FLUX.1-schnell-Free";
     img_steps := 4; img_n := 1; img_height := 1024; img_width := 1024 |}.

(** File-name patterns: a given character, or any decimal digit. *)
Inductive glyph :=
  | Lit (c : N)
  | Digit.

Definition is_digit (c : N) : bool := ((48 <=? c) && (c <=? 57))%N.

Definition glyph_fits (g : glyph) (c : N) : bool :=
  match g with
  | Lit d => (d =? c)%N
  | Digit => is_digit c
  end.

Fixpoint fits (pattern : list glyph) (s : pystr) : bool :=
  match pattern, s with
  | [], [] => true
  | g :: pattern', c :: s' => glyph_fits g c && fits pattern' s'
  | _, _ => false
  end.

(** [ai_image_<YYYYMMDD_HHMMSS>.png] *)
Definition image_name_pattern : list glyph :=
  List.map Lit (py "ai_image_") ++ repeat Digit 8 ++ List.map Lit (py "_")
  ++ repeat Digit 6 ++ List.map Lit (py ".png").

(** The events that touch the file system. *)
Definition touches_files (e : event) : bool :=
  match e with
  | Makedirs _ _ | OpenWb _ | WriteBytes _ _ => true
  | HttpRequest _ | SmtpCall _ | ImagesGenerate _ _ => false
  end.

(** The number a string of decimal digits reads as. *)
Definition decimal_value (s : pystr) : Z :=
  fold_left (fun acc c => 10 * acc + (Z.of_N c - 48)) s 0.

(** The ranges of the fields of a [datetime]. *)
Definition valid_datetime (t : datetime) : Prop :=
  1 <= year t <= 9999 /\ 1 <= month t <= 12 /\ 1 <= day t <= 31
  /\ 0 <= hour t <= 23 /\ 0 <= minute t <= 59 /\ 0 <= second t <= 59.

(** The timeout an HTTP call is built with; [None] for an event that is
    not an HTTP call.  The image service is reached over HTTP by its client,
    whose timeout is the one the client was built with. *)
Definition http_timeout (e : event) : option (option Z) :=
  match e with
  | HttpRequest r => Some (req_timeout r)
  | ImagesGenerate c _ => Some (client_timeout c)
  | SmtpCall _ | Makedirs _ _ | OpenWb _ | WriteBytes _ _ => None
  end.

(** The timeout the requests of a tool are expected to carry. *)
Definition expected_timeout (c : tool_call) : option Z :=
  match c with
  | call_generate_code _ => Some 30
  | _ => None
  end.

(** No event at all. *)
Definition nothing : event -> Prop := fun _ => False.

(** An event that, if it is an HTTP call, carries the timeout [expected]. *)
Definition carries_timeout (expected : option Z) (e : event) : Prop :=
  forall t, http_timeout e = Some t -> t = expected.

(** The request the three completion tools build. *)
Definition completion_request (headers : list (pystr * pystr)) (payload : chat_payload)
    (timeout : option Z) : http_request :=
  {| req_method := POST; req_url := COMPLETIONS_URL; req_headers := headers;
     req_data := Some payload; req_timeout := timeout |}.

(** A computation that only adds to the trace, and only events that
    satisfy [P]. *)
Definition emits {A} (P : event -> Prop) (m : M State A) : Prop :=
  forall s, exists evs, trace (snd (m s)) = trace s ++ evs /\ Forall P evs.

(** ** Worlds and states used as concrete instances *)

Definition empty_state : State := {| trace := []; files := ∅ |}.

Definition connection_refused : exn :=
  {| exn_mro := ["ConnectionError"; "RequestException"; "OSError"]%string;
     exn_str := py "connection refused" |}.

(** No credential is set and nothing outside answers. *)
Definition offline : World :=
  {| environ := ∅;
     home := py "/home/mia";
     now := {| year := 2024; month := 3; day := 5; hour := 7; minute := 8; second := 9 |};
     http_reply := fun _ => Raise connection_refused;
     smtp_reply := fun _ => Some connection_refused;
     images_reply := fun _ _ => Raise connection_refused;
     makedirs_reply := fun _ => None;
     open_reply := fun _ => None;
     write_reply := fun _ _ => None |}.

(** [w] with every HTTP request answered by [reply]. *)
Definition with_http (reply : result Response) (w : World) : World :=
  {| environ := environ w; home := home w; now := now w;
     http_reply := fun _ => reply;
     smtp_reply := smtp_reply w; images_reply := images_reply w;
     makedirs_reply := makedirs_reply w; open_reply := open_reply w;
     write_reply := write_reply w |}.

(** A plain-text response with the given status. *)
Definition text_response (status : Z) (body : pystr) : Response :=
  {| status_code := status; text := body; raise_for_status := None;
     json := Raise {| exn_mro := ["JSONDecodeError"; "ValueError"]%string;
                      exn_str := py "Expecting value: line 1 column 1 (char 0)" |} |}.

(** The body of the weather example: the city, a sun (U+2600 U+FE0F), the
    temperature with a degree sign (U+00B0). *)
Definition london_body : pystr :=
  py "London: " ++ [0x2600%N; 0xFE0F%N] ++ py " +20" ++ [0xB0%N] ++ py "C".

(** A decoder for canonical base64 text (RFC 4648, padded, no line breaks),
    the instance of [b64decode] in the concrete runs below. *)
Definition b64_value (c : N) : option N :=
  (if (65 <=? c) && (c <=? 90) then Some (c - 65)
   else if (97 <=? c) && (c <=? 122) then Some (c - 71)
   else if (48 <=? c) && (c <=? 57) then Some (c + 4)
   else if c =? 43 then Some 62
   else if c =? 47 then Some 63
   else None)%N.

Definition byte_of (n : N) : Byte.byte := default Byte.x00 (Byte.of_N (n mod 256)%N).

Definition b64_quantum (a b c d : N) : list Byte.byte :=
  let n := (a * 262144 + b * 4096 + c * 64 + d)%N in
  [byte_of (n / 65536); byte_of (n / 256); byte_of n].

Fixpoint b64_groups (s : pystr) : option (list Byte.byte) :=
  match s with
  | [] => Some []
  | [a; b; 61%N; 61%N] =>
      match b64_value a, b64_value b with
      | Some a, Some b => Some (take 1 (b64_quantum a b 0 0))
      | _, _ => None
      end
  | [a; b; c; 61%N] =>
      match b64_value a, b64_value b, b64_value c with
      | Some a, Some b, Some c => Some (take 2 (b64_quantum a b c 0))
      | _, _, _ => None
      end
  | a :: b :: c :: d :: rest =>
      match b64_value a, b64_value b, b64_value c, b64_value d, b64_groups rest with
      | Some a, Some b, Some c, Some d, Some tail => Some (b64_quantum a b c d ++ tail)
      | _, _, _, _, _ => None
      end
  | _ => None
  end.

Definition b64decode_strict (s : pystr) : result (list Byte.byte) :=
  match b64_groups s with
  | Some bytes => Ok bytes
  | None => Raise {| exn_mro := ["Error"; "ValueError"]%string;
                     exn_str := py "Incorrect padding" |}
  end.

(** [w] with the environment [env]. *)
Definition with_environ (env : gmap string (list N)) (w : World) : World :=
  {| environ := env; home := home w; now := now w;
     http_reply := http_reply w;
     smtp_reply := smtp_reply w; images_reply := images_reply w;
     makedirs_reply := makedirs_reply w; open_reply := open_reply w;
     write_reply := write_reply w |}.

(** The completion example of the specification:
    [{choices: [{message: {content: " Paris is the capital. "}}]}]. *)
Definition paris_json : jvalue :=
  JObject {[ py "choices" :=
    JList [JObject {[ py "message" :=
      JObject {[ py "content" := JStr (py " Paris is the capital. ") ]} ]}] ]}.

Definition paris_response : Response :=
  {| status_code := 200; text := []; raise_for_status := None; json := Ok paris_json |}.

Definition paris_world : World :=
  with_http (Ok paris_response)
    (with_environ {[ "OPENROUTER_API_KEY"%string := py "sk-or-test" ]} offline).

(** The mail credentials are set, and the server refuses the login. *)
Definition SMTPAuthenticationError_535 : exn :=
  {| exn_mro := ["SMTPAuthenticationError"; "SMTPResponseException"; "SMTPException"; "OSError"]%string;
     exn_str := py "(535, b'5.7.8 Username and Password not accepted.')" |}.

Definition gmail_environ : gmap string (list N) :=
  {[ "GMAIL_USER"%string := py "mia@example.com";
     "GMAIL_APP_PASSWORD"%string := py "app-password" ]}.

Definition login_refused : World :=
  {| environ := gmail_environ; home := home offline; now := now offline;
     http_reply := http_reply offline;
     smtp_reply := fun c =>
       match c with
       | login _ _ => Some SMTPAuthenticationError_535
       | _ => None
       end;
     images_reply := images_reply offline;
     makedirs_reply := makedirs_reply offline; open_reply := open_reply offline;
     write_reply := write_reply offline |}.

(** The image credential is set and the service answers every order with
    [response]. *)
Definition with_images (response : ImageResponse) (w : World) : World :=
  {| environ := {[ "TOGETHER_API_KEY"%string := py "tg-test" ]};
     home := home w; now := now w;
     http_reply := http_reply w; smtp_reply := smtp_reply w;
     images_reply := fun _ _ => Ok (Some response);
     makedirs_reply := makedirs_reply w; open_reply := open_reply w;
     write_reply := write_reply w |}.

Definition base64_world : World :=
  with_images {| data := Some [{| b64_json := Some (py "aGk="); url := None |}] |} offline.

Definition url_world : World :=
  with_images
    {| data := Some [{| b64_json := None;
                        url := Some (py "https://img.example/cat.png") |}] |}
    offline.

(** The completion endpoint answers with a body that has no choice:
    [{choices: []}]. *)
Definition no_choice_world : World :=
  with_http
    (Ok {| status_code := 200; text := []; raise_for_status := None;
           json := Ok (JObject {[ py "choices" := JList [] ]}) |})
    (with_environ {[ "OPENROUTER_API_KEY"%string := py "sk-or-test" ]} offline).

(** [base64_world] on a file system that refuses to open the file. *)
Definition permission_denied : exn :=
  {| exn_mro := ["PermissionError"; "OSError"]%string;
     exn_str := py "[Errno 13] Permission denied" |}.

Definition read_only_world : World :=
  {| environ := environ base64_world; home := home base64_world; now := now base64_world;
     http_reply := http_reply base64_world; smtp_reply := smtp_reply base64_world;
     images_reply := images_reply base64_world;
     makedirs_reply := makedirs_reply base64_world;
     open_reply := fun _ => Some permission_denied;
     write_reply := write_reply base64_world |}.


(** ** Vocabulary for the further properties *)

(** The calls of a sequence that are made when each is awaited in turn and
    the first one that raises ends the sequence, and the exception it ends
    with, if any. *)
Fixpoint until_failure {C} (reply : C -> option exn) (calls : list C) : list C :=
  match calls with
  | [] => []
  | c :: rest =>
      c :: match reply c with
           | None => until_failure reply rest
           | Some _ => []
           end
  end.


(** The envelope and the headers [send_email] is expected to build: the
    copy address counts only when it is a non-empty string. *)
Definition mail_recipients (to_email : pystr) (cc_email : option pystr) : list pystr :=
  if falsy_opt cc_email then [to_email] else [to_email; the cc_email].

Definition mail_headers (user to_email subject : pystr) (cc_email : option pystr)
    : list (pystr * pystr) :=
  [(py "From", user); (py "To", to_email); (py "Subject", subject)]
  ++ (if falsy_opt cc_email then [] else [(py "Cc", the cc_email)]).

(** The five calls of a mail session that runs to its end. *)
Definition mail_session (user password to_email subject message : pystr)
    (cc_email : option pystr) : list smtp_call :=
  [SMTP (py "smtp.gmail.com") 587;
   starttls;
   login user password;
   sendmail user (mail_recipients to_email cc_email)
     {| mime_headers := mail_headers user to_email subject cc_email;
        mime_attached := [(py "plain", message)] |};
   quit].


(** Calls that leave the process: HTTP, the image service, mail. *)
Definition outbound (e : event) : bool :=
  match e with
  | HttpRequest _ | SmtpCall _ | ImagesGenerate _ _ => true
  | Makedirs _ _ | OpenWb _ | WriteBytes _ _ => false
  end.

(** The mail server accepts the connection and the upgrade, and then
    refuses the sender. *)
Definition sender_refused : World :=
  {| environ := gmail_environ; home := home offline; now := now offline;
     http_reply := http_reply offline;
     smtp_reply := fun c =>
       match c with
       | sendmail _ _ _ =>
           Some {| exn_mro := ["SMTPSenderRefused"; "SMTPResponseException";
                               "SMTPException"; "OSError"]%string;
                   exn_str := py "(550, b'sender refused', 'mia@example.com')" |}
       | _ => None
       end;
     images_reply := images_reply offline;
     makedirs_reply := makedirs_reply offline; open_reply := open_reply offline;
     write_reply := write_reply offline |}.

(** A runtime whose room cannot be joined, and one that does all it is
    asked. *)
Definition room_closed (c : runtime_call) : option exn :=
  match c with
  | connect => Some connection_refused
  | _ => None
  end.

Definition obliging (c : runtime_call) : option exn := None.

(** The folder and the file of [generate_ai_image]. *)
Definition pictures_folder (w : World) : pystr := path_join (home w) (py "Pictures").

Definition image_path (w : World) : pystr :=
  path_join (pictures_folder w)
    (py "ai_image_" ++ strftime (now w) (py "%Y%m%d_%H%M%S") ++ py ".png").

(** What saving decoded [bytes] does to the file system: the steps taken,
    in order, and the files afterwards.  Each step is taken only when the
    one before it returned. *)
Inductive image_saving (w : World) (bytes : list Byte.byte)
    (before : gmap (list N) (list Byte.byte))
    : list event -> gmap (list N) (list Byte.byte) -> Prop :=
  | folder_refused (e : exn) :
      makedirs_reply w (pictures_folder w) = Some e ->
      image_saving w bytes before [Makedirs (pictures_folder w) true] before
  | open_refused (e : exn) :
      makedirs_reply w (pictures_folder w) = None ->
      open_reply w (image_path w) = Some e ->
      image_saving w bytes before
        [Makedirs (pictures_folder w) true; OpenWb (image_path w)] before
  | write_refused (e : exn) :
      makedirs_reply w (pictures_folder w) = None ->
      open_reply w (image_path w) = None ->
      write_reply w (image_path w) bytes = Some e ->
      image_saving w bytes before
        [Makedirs (pictures_folder w) true; OpenWb (image_path w);
         WriteBytes (image_path w) bytes]
        (<[image_path w := []]> before)
  | saved :
      makedirs_reply w (pictures_folder w) = None ->
      open_reply w (image_path w) = None ->
      write_reply w (image_path w) bytes = None ->
      image_saving w bytes before
        [Makedirs (pictures_folder w) true; OpenWb (image_path w);
         WriteBytes (image_path w) bytes]
        (<[image_path w := bytes]> before).

(** What a call of [generate_ai_image] does to the outside: nothing, or
    one call of the image service, or that call followed by the saving of a
    decoded payload of the first item. *)
Inductive image_effects (b64decode : pystr -> result (list Byte.byte)) (w : World)
    (prompt : pystr) (before : gmap (list N) (list Byte.byte))
    : list event -> gmap (list N) (list Byte.byte) -> Prop :=
  | image_not_called :
      image_effects b64decode w prompt before [] before
  | image_called (key : pystr) :
      getenv w "TOGETHER_API_KEY" = Some key -> key <> [] ->
      3 <= len (strip prompt) ->
      image_effects b64decode w prompt before
        [ImagesGenerate (image_client key) (image_order prompt)] before
  | image_decoded (key payload : pystr) (item : image_item) (others : list image_item)
      (bytes : list Byte.byte) (steps : list event) (after : gmap (list N) (list Byte.byte)) :
      getenv w "TOGETHER_API_KEY" = Some key -> key <> [] ->
      3 <= len (strip prompt) ->
      images_reply w (image_client key) (image_order prompt)
        = Ok (Some {| data := Some (item :: others) |}) ->
      b64_json item = Some payload -> payload <> [] ->
      b64decode payload = Ok bytes ->
      image_saving w bytes before steps after ->
      image_effects b64decode w prompt before
        (ImagesGenerate (image_client key) (image_order prompt) :: steps) after.

(** The image credential is set and the service is unreachable. *)
Definition image_service_down : World :=
  with_environ {[ "TOGETHER_API_KEY"%string := py "tg-test" ]} offline.


(** The image service answers the fox prompt with one payload and every
    other prompt with another. *)
Definition two_images_world : World :=
  {| environ := {[ "TOGETHER_API_KEY"%string := py "tg-test" ]};
     home := home offline; now := now offline;
     http_reply := http_reply offline; smtp_reply := smtp_reply offline;
     images_reply := fun _ r =>
       Ok (Some {| data :=
         Some [{| b64_json :=
                    Some (if bool_decide (img_prompt r = py "a red fox")
                          then py "aGk=" else py "aGkh");
                  url := None |}] |});
     makedirs_reply := makedirs_reply offline; open_reply := open_reply offline;
     write_reply := write_reply offline |}.

(** [data["choices"][0]["message"]["content"].strip()] as a value: what it
    evaluates to, or the exception it raises. *)
Definition read_first_choice (d : jvalue) : result pystr :=
  fst (first_choice_content d tt).

(** What the reading of a completion request's reply comes to: the stripped
    content, or the exception of the first step that raises ([requests.post],
    [raise_for_status], [json], the lookups). *)
Definition completion_outcome (reply : result Response) : result pystr :=
  match reply with
  | Raise e => Raise e
  | Ok response =>
      match raise_for_status response with
      | Some e => Raise e
      | None =>
          match json response with
          | Raise e => Raise e
          | Ok d => read_first_choice d
          end
      end
  end.

(** The completion endpoint fails every POST with [e]: in transit, by its
    status, or by a body that is not JSON. *)
Definition completions_fail (w : World) (e : exn) : Prop :=
  forall r, req_method r = POST -> req_url r = COMPLETIONS_URL ->
    http_reply w r = Raise e
    \/ exists response,
         http_reply w r = Ok response
         /\ (raise_for_status response = Some e
             \/ (raise_for_status response = None /\ json response = Raise e)).

(** The completion endpoint answers with status 429. *)
Definition too_many_requests : exn :=
  {| exn_mro := ["HTTPError"; "RequestException"; "OSError"]%string;
     exn_str := py "429 Client Error: Too Many Requests for url: https://openrouter.ai/api/v1/chat/completions" |}.

Definition rate_limited_world : World :=
  with_http
    (Ok {| status_code := 429; text := []; raise_for_status := Some too_many_requests;
           json := Ok JNull |})
    (with_environ {[ "OPENROUTER_API_KEY"%string := py "sk-or-test" ]} offline).

(** The two kinds of HTTP request the tools may send: the weather lookup,
    which carries no header and no body, and a POST to the completion
    endpoint that authorises itself with the completion key. *)
Definition request_allowed (w : World) (r : http_request) : Prop :=
  (req_method r = GET
   /\ (exists city, req_url r = py "https://wttr.in/" ++ city ++ py "?format=3")
   /\ req_headers r = [] /\ req_data r = None)
  \/ (req_method r = POST /\ req_url r = COMPLETIONS_URL
      /\ exists key,
           getenv w "OPENROUTER_API_KEY" = Some key /\ key <> []
           /\ In (py "Authorization", py "Bearer " ++ key) (req_headers r)
           /\ In (py "Content-Type", py "application/json") (req_headers r)).


Definition is_image_call (c : tool_call) : bool :=
  match c with
  | call_generate_ai_image _ => true
  | _ => false
  end.

(** A string made of whitespace only (the empty string included). *)
Definition blank (s : pystr) : Prop := Forall (fun c => py_isspace c = true) s.

(** The weather service answers 200 with a body of two spaces and a line
    break. *)
Definition blank_weather_world : World :=
  with_http (Ok (text_response 200 (py "  " ++ [10%N]))) offline.
(** * Theorems *)

(** ** The monad *)

Lemma bind_ret_l {S A B} (a : A) (k : A -> M S B) (s : S) : bind (ret a) k s = k a s.
Proof. reflexivity. Qed.

Lemma bind_ret_r {S A} (m : M S A) (s : S) : bind m ret s = m s.
Proof. unfold bind, ret. destruct (m s) as [[a|e] s']; reflexivity. Qed.

Lemma bind_assoc {S A B C} (m : M S A) (f : A -> M S B) (g : B -> M S C) (s : S) :
  bind (bind m f) g s = bind m (fun x => bind (f x) g) s.
Proof. unfold bind. destruct (m s) as [[a|e] s']; reflexivity. Qed.

Lemma bind_raise {S A B} (e : exn) (k : A -> M S B) (s : S) :
  bind (raise e) k s = (Raise e, s).
Proof. reflexivity. Qed.

Lemma try_except_ret {S A} (a : A) (handlers : list (string * (exn -> M S A))) (s : S) :
  try_except (ret a) handlers s = (Ok a, s).
Proof. reflexivity. Qed.

Lemma try_except_raise {S A} (e : exn) (handlers : list (string * (exn -> M S A))) (s : S) :
  try_except (raise e) handlers s = dispatch handlers e s.
Proof. reflexivity. Qed.

(** An exception of a class no clause names goes on to the caller. *)
Lemma dispatch_unmatched {S A} (handlers : list (string * (exn -> M S A))) (e : exn) (s : S) :
  Forall (fun h => isinstance e (fst h) = false) handlers ->
  dispatch handlers e s = (Raise e, s).
Proof.
  induction 1 as [|[cls h] rest Hh _ IH]; simpl; [reflexivity|].
  simpl in Hh. rewrite Hh. exact IH.
Qed.

(** ** Strings *)

Lemma startswith_spec (p s : pystr) :
  startswith s p = true <-> exists t, s = p ++ t.
Proof.
  revert s. induction p as [|a p IH]; intros s; simpl.
  - split; [intros _; exists s; reflexivity | reflexivity].
  - destruct s as [|b s]; simpl.
    + split; [discriminate | intros [t Ht]; discriminate].
    + rewrite andb_true_iff, N.eqb_eq, IH. split.
      * intros [-> [t ->]]. exists t. reflexivity.
      * intros [t Ht]. injection Ht as -> ->. split; [reflexivity | exists t; reflexivity].
Qed.

Lemma contains_spec (s p : pystr) :
  contains s p = true <-> exists pre post, s = pre ++ p ++ post.
Proof.
  induction s as [|c s IH].
  - simpl. rewrite orb_false_r, startswith_spec. split.
    + intros [t Ht]. exists [], t. exact Ht.
    + intros [pre [post H]]. destruct pre; [exists post; exact H | discriminate].
  - simpl. rewrite orb_true_iff, startswith_spec, IH. split.
    + intros [[t Ht] | [pre [post H]]].
      * exists [], t. exact Ht.
      * exists (c :: pre), post. simpl. rewrite H. reflexivity.
    + intros [pre [post H]]. destruct pre as [|d pre].
      * left. exists post. exact H.
      * right. injection H as -> H. exists pre, post. exact H.
Qed.

Lemma contains_middle (pre p post : pystr) : contains (pre ++ p ++ post) p = true.
Proof. apply contains_spec. exists pre, post. reflexivity. Qed.


(** ** Weather *)

Lemma get_weather_run (w : World) (city : pystr) (s : State) :
  get_weather w city s =
    (Ok (Str (match http_reply w (weather_request city) with
              | Ok response =>
                  if status_code response =? 200 then strip (text response)
                  else py "Could not retrieve weather for " ++ city ++ py "."
              | Raise _ => py "An error occurred while retrieving weather for " ++ city ++ py "."
              end)),
     record (HttpRequest (weather_request city)) s).
Proof.
  unfold get_weather, try_except, bind, requests_get. fold (weather_request city).
  destruct (http_reply w (weather_request city)) as [response|e]; simpl.
  - destruct (status_code response =? 200); reflexivity.
  - reflexivity.
Qed.

Lemma issued_record {A} (m : M State A) (s : State) (r : result A) (s' : State) (evs : list event) :
  m s = (r, s') -> trace s' = trace s ++ evs -> issued m s = evs.
Proof.
  intros Hm Ht. unfold issued. rewrite Hm. simpl. rewrite Ht.
  apply drop_app_length.
Qed.


(** The weather example of the specification: a 200 response whose body is
    the London line, followed by a line break, comes back as that line. *)
Example get_weather_london :
  get_weather (with_http (Ok (text_response 200 (london_body ++ py " " ++ [10%N]))) offline)
    (py "London") empty_state
  = (Ok (Str london_body),
     {| trace := [HttpRequest (weather_request (py "London"))]; files := ∅ |}).
Proof. reflexivity. Qed.

(** C10: only status 200 counts as success for [get_weather]: a response
    with any other status, 201 and 204 included, is answered with
    "Could not retrieve weather for {city}." and its body is not used. *)
Theorem get_weather_only_200 (w : World) (city : pystr) (s : State) (response : Response) :
  http_reply w (weather_request city) = Ok response ->
  status_code response <> 200 ->
  get_weather w city s
    = (Ok (Str (py "Could not retrieve weather for " ++ city ++ py ".")),
       record (HttpRequest (weather_request city)) s).
Proof.
  intros Hreply Hne. rewrite get_weather_run, Hreply.
  apply Z.eqb_neq in Hne. rewrite Hne. reflexivity.
Qed.

Lemma get_weather_only_200_witness :
  get_weather (with_http (Ok (text_response 204 london_body)) offline) (py "London") empty_state
  = (Ok (Str (py "Could not retrieve weather for " ++ py "London" ++ py ".")),
     record (HttpRequest (weather_request (py "London"))) empty_state).
Proof.
  apply (get_weather_only_200 _ _ _ (text_response 204 london_body)).
  - reflexivity.
  - simpl. lia.
Defined.

(** ** Every call ends in a string *)

Lemma sor_ret (t : pystr) : string_or_raise (ret (Str t)).
Proof. intros s. left. exists t, s. reflexivity. Qed.

Lemma sor_bind {A} (m : M State A) (k : A -> M State retval) :
  (forall a, string_or_raise (k a)) -> string_or_raise (bind m k).
Proof.
  intros Hk s. unfold bind. destruct (m s) as [[a|e] s'].
  - apply Hk.
  - right. exists e, s'. reflexivity.
Qed.

Lemma sor_if (b : bool) (m1 m2 : M State retval) :
  string_or_raise m1 -> string_or_raise m2 -> string_or_raise (if b then m1 else m2).
Proof. destruct b; intros; assumption. Qed.

Lemma returns_ret (t : pystr) : returns_string (ret (Str t)).
Proof. intros s. exists t, s. reflexivity. Qed.

(** A [try] whose body never ends in [None] and whose handlers catch
    every exception with a string always hands back a string. *)
Lemma returns_try (body : M State retval) (handlers : list (string * (exn -> M State retval))) :
  string_or_raise body ->
  (forall e, returns_string (dispatch handlers e)) ->
  returns_string (try_except body handlers).
Proof.
  intros Hbody Hh s. unfold try_except.
  destruct (Hbody s) as [(t & s' & ->) | (e & s' & ->)].
  - exists t, s'. reflexivity.
  - apply Hh.
Qed.

(** A clause [except Exception] catches whatever reaches it. *)
Lemma dispatch_Exception (h : exn -> M State retval) rest (e : exn) :
  dispatch (("Exception"%string, h) :: rest) e = h e.
Proof. reflexivity. Qed.

Ltac sor :=
  repeat first
    [ apply sor_ret
    | apply sor_bind; intros
    | apply sor_if ].

Lemma get_weather_returns w city : returns_string (get_weather w city).
Proof.
  apply returns_try; [sor | intros e; apply returns_ret].
Qed.

Lemma search_web_returns w query : returns_string (search_web w query).
Proof. apply returns_try; [sor | intros e; apply returns_ret]. Qed.

Lemma generate_code_returns w prompt : returns_string (generate_code w prompt).
Proof. apply returns_try; [sor | intros e; apply returns_ret]. Qed.

Lemma write_essay_returns w topic words : returns_string (write_essay w topic words).
Proof. apply returns_try; [sor | intros e; apply returns_ret]. Qed.

Lemma send_email_returns w to_email subject message cc_email :
  returns_string (send_email w to_email subject message cc_email).
Proof.
  apply returns_try; [sor|].
  intros e. simpl.
  destruct (isinstance e "SMTPAuthenticationError"); [apply returns_ret|].
  destruct (isinstance e "SMTPException"); apply returns_ret.
Qed.

Lemma generate_ai_image_returns b64decode w prompt :
  returns_string (generate_ai_image b64decode w prompt).
Proof.
  apply returns_try; [sor | intros e; apply returns_ret].
  destruct a as [[[[|image_info rest]|]]|]; try apply sor_ret.
  destruct image_info as [[b|] [u|]]; simpl;
    try destruct b; try destruct u; simpl; sor.
Qed.

(** C1: whichever of the six tools the runtime calls, with whatever
    arguments, and whatever the outside answers (a success, an error status,
    a raised exception, a response of the wrong shape, a failing file
    system), the call ends with one string as its result: no exception
    leaves the tool and the result is never [None]. *)
Theorem every_tool_call_returns_a_string
    (b64decode : pystr -> result (list Byte.byte)) (w : World) (c : tool_call) (s : State) :
  exists answer s', run_tool b64decode w c s = (Ok (Str answer), s').
Proof.
  destruct c; simpl.
  - apply get_weather_returns.
  - apply search_web_returns.
  - apply send_email_returns.
  - apply generate_ai_image_returns.
  - apply generate_code_returns.
  - apply write_essay_returns.
Qed.

Example b64decode_strict_hi :
  b64decode_strict (py "aGk=") = Ok [Byte.x68; Byte.x69]
  /\ b64decode_strict (py "aGkh") = Ok [Byte.x68; Byte.x69; Byte.x21]
  /\ b64decode_strict (py "aA==") = Ok [Byte.x68].
Proof. repeat split; reflexivity. Qed.

(** ** Checks made before any call goes out *)

Lemma issued_nothing {A} (m : M State A) (s : State) (r : result A) :
  m s = (r, s) -> issued m s = [].
Proof. intros Hm. apply (issued_record m s r s); [exact Hm | symmetry; apply app_nil_r]. Qed.

Lemma search_web_without_key (w : World) (query : pystr) (s : State) :
  falsy_opt (getenv w "OPENROUTER_API_KEY") = true ->
  search_web w query s
    = (Ok (Str (py "OpenRouter API key not found. Please check your .env file.")), s).
Proof. intros H. unfold search_web, try_except. rewrite H. reflexivity. Qed.

Lemma generate_code_without_key (w : World) (prompt : pystr) (s : State) :
  falsy_opt (getenv w "OPENROUTER_API_KEY") = true ->
  generate_code w prompt s
    = (Ok (Str (CROSS_MARK ++ py " Missing OpenRouter API key. Please check your .env file.")), s).
Proof. intros H. unfold generate_code, try_except. rewrite H. reflexivity. Qed.

Lemma write_essay_without_key (w : World) (topic : pystr) (words : Z) (s : State) :
  falsy_opt (getenv w "OPENROUTER_API_KEY") = true ->
  write_essay w topic words s
    = (Ok (Str (CROSS_MARK ++ py " OpenRouter API key is missing. Please check your .env file.")), s).
Proof. intros H. unfold write_essay, try_except. rewrite H. reflexivity. Qed.

Lemma send_email_without_credentials (w : World) (to_email subject message : pystr)
    (cc_email : option pystr) (s : State) :
  falsy_opt (getenv w "GMAIL_USER") = true \/ falsy_opt (getenv w "GMAIL_APP_PASSWORD") = true ->
  send_email w to_email subject message cc_email s
    = (Ok (Str (py "Email sending failed: Gmail credentials not configured.")), s).
Proof.
  intros H. unfold send_email, try_except.
  replace (falsy_opt (getenv w "GMAIL_USER") || falsy_opt (getenv w "GMAIL_APP_PASSWORD"))
    with true; [reflexivity|].
  symmetry. apply orb_true_iff. exact H.
Qed.

Lemma generate_ai_image_short_prompt b64decode (w : World) (prompt : pystr) (s : State) :
  falsy prompt || (len (strip prompt) <? 3) = true ->
  generate_ai_image b64decode w prompt s
    = (Ok (Str (CROSS_MARK ++ py " Please provide a clear description of the image you want.")), s).
Proof. intros H. unfold generate_ai_image, try_except. rewrite H. reflexivity. Qed.

Lemma generate_ai_image_without_key b64decode (w : World) (prompt : pystr) (s : State) :
  falsy prompt || (len (strip prompt) <? 3) = false ->
  falsy_opt (getenv w "TOGETHER_API_KEY") = true ->
  generate_ai_image b64decode w prompt s
    = (Ok (Str (CROSS_MARK ++ py " Together AI API key not found. Please check your .env file.")), s).
Proof. intros Hp Hk. unfold generate_ai_image, try_except. rewrite Hp, Hk. reflexivity. Qed.

(** C3: a prompt that is empty, or shorter than three characters once
    stripped, makes [generate_ai_image] answer its validation message;
    nothing is sent and nothing is written. *)
Theorem short_prompt_is_rejected_locally
    (b64decode : pystr -> result (list Byte.byte)) (w : World) (prompt : pystr) (s : State) :
  prompt = [] \/ len (strip prompt) < 3 ->
  generate_ai_image b64decode w prompt s
    = (Ok (Str (CROSS_MARK ++ py " Please provide a clear description of the image you want.")), s)
  /\ issued (generate_ai_image b64decode w prompt) s = [].
Proof.
  intros H.
  assert (Hrun : generate_ai_image b64decode w prompt s
    = (Ok (Str (CROSS_MARK ++ py " Please provide a clear description of the image you want.")), s)).
  { apply generate_ai_image_short_prompt. apply orb_true_iff.
    destruct H as [-> | H]; [left; reflexivity | right; apply Z.ltb_lt; exact H]. }
  split; [exact Hrun | exact (issued_nothing _ _ _ Hrun)].
Qed.

Lemma short_prompt_is_rejected_locally_witness :
  generate_ai_image b64decode_strict offline (py " a") empty_state
    = (Ok (Str (CROSS_MARK ++ py " Please provide a clear description of the image you want.")),
       empty_state)
  /\ issued (generate_ai_image b64decode_strict offline (py " a")) empty_state = [].
Proof.
  apply (short_prompt_is_rejected_locally b64decode_strict offline (py " a") empty_state).
  right. vm_compute. reflexivity.
Defined.

(** C2, as the code has it: a tool whose credential is unset or empty
    sends nothing and writes nothing, and answers with a message that speaks
    of the credential; the image tool does so for a prompt that passes its
    validation, which it runs before it looks for the credential. *)
Theorem missing_credential_is_reported
    (b64decode : pystr -> result (list Byte.byte)) (w : World) (c : tool_call) (s : State)
    (name : string) :
  In name (required_credentials c) ->
  falsy_opt (getenv w name) = true ->
  exists answer,
    run_tool b64decode w c s = (Ok (Str answer), s)
    /\ issued (run_tool b64decode w c) s = []
    /\ (prompt_accepted c = true -> mentions_credential answer = true).
Proof.
  intros Hin Hmissing.
  assert (exists answer, run_tool b64decode w c s = (Ok (Str answer), s)
            /\ (prompt_accepted c = true -> mentions_credential answer = true)) as (a & Hrun & Hm).
  { destruct c; simpl in Hin |- *.
    - destruct Hin.
    - destruct Hin as [<- | []]. eexists. split;
        [apply search_web_without_key; exact Hmissing | intros _; vm_compute; reflexivity].
    - eexists. split.
      + apply send_email_without_credentials.
        destruct Hin as [<- | [<- | []]]; [left | right]; exact Hmissing.
      + intros _. vm_compute. reflexivity.
    - destruct Hin as [<- | []].
      destruct (falsy prompt || (len (strip prompt) <? 3)) eqn:Hp.
      + eexists. split; [apply generate_ai_image_short_prompt; exact Hp | discriminate].
      + eexists. split;
          [apply generate_ai_image_without_key; assumption | intros _; vm_compute; reflexivity].
    - destruct Hin as [<- | []]. eexists. split;
        [apply generate_code_without_key; exact Hmissing | intros _; vm_compute; reflexivity].
    - destruct Hin as [<- | []]. eexists. split;
        [apply write_essay_without_key; exact Hmissing | intros _; vm_compute; reflexivity]. }
  exists a. split; [exact Hrun|]. split; [exact (issued_nothing _ _ _ Hrun) | exact Hm].
Qed.

Lemma missing_credential_is_reported_witness :
  exists answer,
    run_tool b64decode_strict offline (call_search_web (py "capital of France")) empty_state
      = (Ok (Str answer), empty_state)
    /\ issued (run_tool b64decode_strict offline (call_search_web (py "capital of France")))
         empty_state = []
    /\ (prompt_accepted (call_search_web (py "capital of France")) = true ->
        mentions_credential answer = true).
Proof.
  apply (missing_credential_is_reported b64decode_strict offline
           (call_search_web (py "capital of France")) empty_state "OPENROUTER_API_KEY").
  - simpl. left. reflexivity.
  - reflexivity.
Defined.

(** C2 as stated fails for the image tool: with no image credential set
    and the prompt "hi", the answer is the validation message, which has no
    phrase about credentials or configuration. *)
Lemma short_prompt_hides_missing_credential :
  In "TOGETHER_API_KEY"%string (required_credentials (call_generate_ai_image (py "hi")))
  /\ getenv offline "TOGETHER_API_KEY" = None
  /\ run_tool b64decode_strict offline (call_generate_ai_image (py "hi")) empty_state
     = (Ok (Str (CROSS_MARK ++ py " Please provide a clear description of the image you want.")),
        empty_state)
  /\ mentions_credential
       (CROSS_MARK ++ py " Please provide a clear description of the image you want.") = false.
Proof.
  split; [left; reflexivity|]. split; [reflexivity|].
  split; [reflexivity | vm_compute; reflexivity].
Qed.

(** ** The completion tools *)

Lemma first_choice_content_of_shape {S} (d : jvalue) (answer : pystr) (s : S) :
  completion_body d answer ->
  first_choice_content d s = (Ok (strip answer), s).
Proof.
  intros (body & first & message & others & -> & Hc & Hm & Ha).
  unfold first_choice_content, bind, lift, getitem_key.
  rewrite Hc. simpl. rewrite Hm. rewrite Ha. reflexivity.
Qed.




(** The completion example of the specification, run through [search_web]. *)
Example search_web_paris :
  fst (search_web paris_world (py "What is the capital of France?") empty_state)
  = Ok (Str (py "Paris is the capital.")).
Proof. vm_compute. reflexivity. Qed.

(** ** Mail *)






(** A refused login, run: the session stops at [login] and the answer is
    the authentication sentence. *)
Example send_email_login_refused :
  send_email login_refused (py "boss@example.com") (py "Hello") (py "Good morning.") None
    empty_state
  = (Ok (Str (py "Email sending failed: Authentication error. Please check your Gmail credentials.")),
     {| trace := [SmtpCall (SMTP (py "smtp.gmail.com") 587);
                  SmtpCall starttls;
                  SmtpCall (login (py "mia@example.com") (py "app-password"))];
        files := ∅ |}).
Proof. vm_compute. reflexivity. Qed.

(** ** Paths and time stamps *)

Lemma py_cons (a : ascii) (s : string) : py (String a s) = N_of_ascii a :: py s.
Proof. reflexivity. Qed.

(** The pictures folder is the home directory followed by [Pictures],
    with a separator between them unless the home directory brings one. *)
Lemma pictures_folder_shape (home_dir : pystr) :
  exists x, path_join home_dir (py "Pictures") = x ++ py "Pictures".
Proof.
  unfold path_join. change (startswith (py "Pictures") (py "/")) with false. cbv iota.
  destruct (falsy home_dir || startswith (rev home_dir) (py "/")).
  - exists home_dir. reflexivity.
  - exists (home_dir ++ py "/"). rewrite <- app_assoc. reflexivity.
Qed.

(** Joining a relative name to a folder that ends in [Pictures] puts one
    separator between them. *)
Lemma path_join_under_pictures (x name : pystr) :
  startswith name (py "/") = false ->
  path_join (x ++ py "Pictures") name = (x ++ py "Pictures") ++ py "/" ++ name.
Proof.
  intros Hrel. unfold path_join. rewrite Hrel.
  replace (falsy (x ++ py "Pictures") || startswith (rev (x ++ py "Pictures")) (py "/"))
    with false; [reflexivity|].
  symmetry. apply orb_false_iff. split.
  - destruct x; reflexivity.
  - rewrite rev_app_distr. reflexivity.
Qed.

Lemma strftime_stamp (t : datetime) :
  strftime t (py "%Y%m%d_%H%M%S")
  = zero_padded 4 (year t) ++ zero_padded 2 (month t) ++ zero_padded 2 (day t)
    ++ py "_" ++ zero_padded 2 (hour t) ++ zero_padded 2 (minute t)
    ++ zero_padded 2 (second t).
Proof. reflexivity. Qed.

Lemma fits_length (pattern : list glyph) (s : pystr) :
  fits pattern s = true -> length pattern = length s.
Proof.
  revert s. induction pattern as [|g pattern IH]; intros [|c s]; simpl; try discriminate.
  - reflexivity.
  - intros H. apply andb_true_iff in H as [_ H]. f_equal. apply IH. exact H.
Qed.

Lemma fits_app (p1 p2 : list glyph) (s1 s2 : pystr) :
  fits p1 s1 = true -> fits p2 s2 = true -> fits (p1 ++ p2) (s1 ++ s2) = true.
Proof.
  revert s1. induction p1 as [|g p1 IH]; intros [|c s1]; simpl; try discriminate.
  - intros _ H. exact H.
  - intros H1 H2. apply andb_true_iff in H1 as [Hg H1].
    rewrite Hg. simpl. apply IH; assumption.
Qed.

Lemma fits_literal (s : pystr) : fits (List.map Lit s) s = true.
Proof.
  induction s as [|c s IH]; simpl; [reflexivity|].
  rewrite N.eqb_refl. exact IH.
Qed.

Lemma zero_padded_digit (n : Z) : is_digit (Z.to_N (48 + n mod 10)) = true.
Proof.
  pose proof (Z.mod_pos_bound n 10 eq_refl) as Hb.
  unfold is_digit. apply andb_true_iff. split; apply N.leb_le; lia.
Qed.

Lemma fits_zero_padded (width : nat) (n : Z) :
  fits (repeat Digit width) (zero_padded width n) = true.
Proof.
  revert n. induction width as [|k IH]; intros n; [reflexivity|].
  change (repeat Digit (S k)) with (Digit :: repeat Digit k).
  rewrite repeat_cons. simpl zero_padded.
  apply fits_app; [apply IH|].
  simpl. rewrite zero_padded_digit. reflexivity.
Qed.

(** The name the image tool builds fits [ai_image_<YYYYMMDD_HHMMSS>.png],
    whatever the clock shows. *)
Lemma image_name_fits (t : datetime) :
  fits image_name_pattern
    (py "ai_image_" ++ strftime t (py "%Y%m%d_%H%M%S") ++ py ".png") = true.
Proof.
  rewrite strftime_stamp. unfold image_name_pattern.
  change (repeat Digit 8) with (repeat Digit 4 ++ repeat Digit 2 ++ repeat Digit 2).
  change (repeat Digit 6) with (repeat Digit 2 ++ repeat Digit 2 ++ repeat Digit 2).
  rewrite <- !app_assoc.
  repeat first
    [ apply fits_literal
    | apply fits_zero_padded
    | apply fits_app ].
Qed.

(** Within the ranges of a [datetime] the padded fields lose nothing: each
    reads back as the number it was printed from. *)
Lemma zero_padded_reads_back (width : nat) (n : Z) :
  0 <= n < 10 ^ Z.of_nat width -> decimal_value (zero_padded width n) = n.
Proof.
  revert n. induction width as [|k IH]; intros n Hn.
  - change (10 ^ Z.of_nat 0) with 1 in Hn. change (decimal_value (zero_padded 0 n)) with 0. lia.
  - simpl zero_padded. unfold decimal_value in *.
    rewrite fold_left_app. simpl.
    rewrite IH.
    + pose proof (Z.mod_pos_bound n 10 eq_refl). rewrite Z2N.id by lia.
      pose proof (Z.div_mod n 10). lia.
    + rewrite Nat2Z.inj_succ, Z.pow_succ_r in Hn by lia.
      split; [apply Z.div_pos; lia | apply Z.div_lt_upper_bound; lia].
Qed.

(** For a [datetime] within its ranges the stamp is the six fields, each
    on its width, and each reads back as the field. *)
Lemma stamp_reads_back (t : datetime) :
  valid_datetime t ->
  exists Y m d H M S,
    strftime t (py "%Y%m%d_%H%M%S") = Y ++ m ++ d ++ py "_" ++ H ++ M ++ S
    /\ List.map (fun x => length x) [Y; m; d; H; M; S] = [4; 2; 2; 2; 2; 2]%nat
    /\ List.map decimal_value [Y; m; d; H; M; S]
       = [year t; month t; day t; hour t; minute t; second t].
Proof.
  intros (Hy & Hm & Hd & HH & HM & HS).
  exists (zero_padded 4 (year t)), (zero_padded 2 (month t)), (zero_padded 2 (day t)),
         (zero_padded 2 (hour t)), (zero_padded 2 (minute t)), (zero_padded 2 (second t)).
  split; [apply strftime_stamp|]. split; [reflexivity|].
  cbn [List.map]. rewrite !zero_padded_reads_back; [reflexivity | | | | | |];
    simpl; lia.
Qed.

Example strftime_example :
  strftime (now offline) (py "%Y%m%d_%H%M%S") = py "20240305_070809".
Proof. reflexivity. Qed.

(** ** Image generation *)

Lemma long_prompt_passes (prompt : pystr) :
  3 <= len (strip prompt) -> falsy prompt || (len (strip prompt) <? 3) = false.
Proof.
  intros H. apply orb_false_iff. split.
  - destruct prompt; [|reflexivity]. exfalso. revert H. vm_compute. intros H. apply H. reflexivity.
  - apply Z.ltb_ge. exact H.
Qed.

Lemma truthy_key (key : pystr) : key <> [] -> falsy key = false.
Proof. destruct key; [intros H; destruct (H eq_refl) | reflexivity]. Qed.

(** C7: when the image service answers a valid prompt with a first item
    carrying base64 text that decodes, and the file system lets the tool
    create the folder and write, [generate_ai_image] makes sure the user's
    [Pictures] folder exists, writes the decoded bytes to exactly one file
    in it, named [ai_image_<YYYYMMDD_HHMMSS>.png] after the clock, and
    answers a success message that contains the file's path. *)
Theorem base64_image_is_saved
    (b64decode : pystr -> result (list Byte.byte)) (w : World) (prompt key payload : pystr)
    (bytes : list Byte.byte) (item : image_item) (others : list image_item) (s : State) :
  let folder := path_join (home w) (py "Pictures") in
  let name := py "ai_image_" ++ strftime (now w) (py "%Y%m%d_%H%M%S") ++ py ".png" in
  let path := path_join folder name in
  3 <= len (strip prompt) ->
  getenv w "TOGETHER_API_KEY" = Some key -> key <> [] ->
  images_reply w (image_client key) (image_order prompt)
    = Ok (Some {| data := Some (item :: others) |}) ->
  b64_json item = Some payload -> payload <> [] ->
  b64decode payload = Ok bytes ->
  makedirs_reply w folder = None ->
  open_reply w path = None ->
  write_reply w path bytes = None ->
  exists answer s',
    generate_ai_image b64decode w prompt s = (Ok (Str answer), s')
    /\ trace s' = trace s ++ [ImagesGenerate (image_client key) (image_order prompt);
                              Makedirs folder true; OpenWb path; WriteBytes path bytes]
    /\ filter touches_files (issued (generate_ai_image b64decode w prompt) s)
       = [Makedirs folder true; OpenWb path; WriteBytes path bytes]
    /\ files s' = <[path := bytes]> (files s)
    /\ path = folder ++ py "/" ++ name
    /\ fits image_name_pattern name = true
    /\ startswith answer (CHECK_MARK ++ py " Image generated successfully!") = true
    /\ contains answer path = true.
Proof.
  intros folder name path Hprompt Hkey Hkey' Himage Hb64 Hb64' Hdecode Hmk Hopen Hwrite.
  assert (Hrun : exists pre post,
    generate_ai_image b64decode w prompt s
    = (Ok (Str ((CHECK_MARK ++ py " Image generated successfully!" ++ pre) ++ path ++ post)),
       store path bytes
         (record (WriteBytes path bytes)
            (store path []
               (record (OpenWb path)
                  (record (Makedirs folder true)
                     (record (ImagesGenerate (image_client key) (image_order prompt)) s))))))).
  { unfold generate_ai_image, try_except.
    rewrite (long_prompt_passes _ Hprompt), Hkey.
    change (falsy_opt (Some key)) with (falsy key). rewrite (truthy_key _ Hkey').
    change (the (Some key)) with key. unfold bind at 1. unfold images_generate.
    fold (image_client key) (image_order prompt). rewrite Himage. cbv beta iota.
    rewrite Hb64. change (falsy_opt (Some payload)) with (falsy payload).
    rewrite (truthy_key _ Hb64'). cbv beta iota delta [andb negb].
    change (the (Some payload)) with payload.
    unfold bind, lift, makedirs, open_wb, write, of_option.
    rewrite Hdecode. fold folder. fold name. fold path.
    rewrite Hmk, Hopen, Hwrite. cbv beta iota.
    eexists (py "<br>" ++ FILE_FOLDER ++ py " Saved to: `"), _.
    unfold ret. rewrite <- !app_assoc. reflexivity. }
  destruct Hrun as (pre & post & Hrun).
  eexists _, _. split; [exact Hrun|].
  assert (Htrace : forall st : State,
    trace (store path bytes
      (record (WriteBytes path bytes)
         (store path []
            (record (OpenWb path)
               (record (Makedirs folder true)
                  (record (ImagesGenerate (image_client key) (image_order prompt)) st))))))
    = trace st ++ [ImagesGenerate (image_client key) (image_order prompt);
                   Makedirs folder true; OpenWb path; WriteBytes path bytes]).
  { intros st. simpl. rewrite <- !app_assoc. reflexivity. }
  split; [apply Htrace|].
  split; [rewrite (issued_record _ _ _ _ _ Hrun (Htrace s)); reflexivity|].
  split; [simpl; apply insert_insert_eq|].
  split.
  - destruct (pictures_folder_shape (home w)) as [x Hx].
    unfold path, folder. rewrite Hx. apply path_join_under_pictures. reflexivity.
  - split; [apply image_name_fits|].
    split; [|apply contains_middle].
    apply startswith_spec. eexists. rewrite <- !app_assoc. reflexivity.
Qed.

Lemma base64_image_is_saved_witness :
  let folder := py "/home/mia/Pictures" in
  let name := py "ai_image_20240305_070809.png" in
  let path := py "/home/mia/Pictures/ai_image_20240305_070809.png" in
  exists answer s',
    generate_ai_image b64decode_strict base64_world (py "a red fox") empty_state
      = (Ok (Str answer), s')
    /\ trace s' = trace empty_state
                   ++ [ImagesGenerate (image_client (py "tg-test")) (image_order (py "a red fox"));
                       Makedirs folder true; OpenWb path; WriteBytes path [Byte.x68; Byte.x69]]
    /\ filter touches_files
         (issued (generate_ai_image b64decode_strict base64_world (py "a red fox")) empty_state)
       = [Makedirs folder true; OpenWb path; WriteBytes path [Byte.x68; Byte.x69]]
    /\ files s' = <[path := [Byte.x68; Byte.x69]]> (files empty_state)
    /\ path = folder ++ py "/" ++ name
    /\ fits image_name_pattern name = true
    /\ startswith answer (CHECK_MARK ++ py " Image generated successfully!") = true
    /\ contains answer path = true.
Proof.
  apply (base64_image_is_saved b64decode_strict base64_world (py "a red fox") (py "tg-test")
           (py "aGk=") [Byte.x68; Byte.x69]
           {| b64_json := Some (py "aGk="); url := None |} [] empty_state).
  - vm_compute. discriminate.
  - reflexivity.
  - discriminate.
  - reflexivity.
  - reflexivity.
  - discriminate.
  - reflexivity.
  - reflexivity.
  - reflexivity.
  - reflexivity.
Defined.

(** C8: when the first item of the image service's answer carries a URL
    and no base64 text, [generate_ai_image] touches no file (no folder is
    made, nothing is opened or written, the files stay as they were) and
    answers a success message that embeds the URL. *)
Theorem url_only_image_is_not_saved
    (b64decode : pystr -> result (list Byte.byte)) (w : World) (prompt key link : pystr)
    (item : image_item) (others : list image_item) (s : State) :
  3 <= len (strip prompt) ->
  getenv w "TOGETHER_API_KEY" = Some key -> key <> [] ->
  images_reply w (image_client key) (image_order prompt)
    = Ok (Some {| data := Some (item :: others) |}) ->
  falsy_opt (b64_json item) = true ->
  url item = Some link -> link <> [] ->
  exists answer s',
    generate_ai_image b64decode w prompt s = (Ok (Str answer), s')
    /\ trace s' = trace s ++ [ImagesGenerate (image_client key) (image_order prompt)]
    /\ filter touches_files (issued (generate_ai_image b64decode w prompt) s) = []
    /\ files s' = files s
    /\ startswith answer (CHECK_MARK ++ py " Image generated successfully via URL!") = true
    /\ contains answer link = true.
Proof.
  intros Hprompt Hkey Hkey' Himage Hb64 Hurl Hurl'.
  assert (Hrun : exists pre post,
    generate_ai_image b64decode w prompt s
    = (Ok (Str ((CHECK_MARK ++ py " Image generated successfully via URL!" ++ pre)
                ++ link ++ post)),
       record (ImagesGenerate (image_client key) (image_order prompt)) s)).
  { unfold generate_ai_image, try_except.
    rewrite (long_prompt_passes _ Hprompt), Hkey.
    change (falsy_opt (Some key)) with (falsy key). rewrite (truthy_key _ Hkey').
    change (the (Some key)) with key. unfold bind at 1. unfold images_generate.
    fold (image_client key) (image_order prompt). rewrite Himage. cbv beta iota.
    rewrite Hb64, Hurl. change (falsy_opt (Some link)) with (falsy link).
    rewrite (truthy_key _ Hurl'). cbv beta iota delta [andb negb].
    change (the (Some link)) with link.
    eexists (py "<br>" ++ FRAMED_PICTURE ++ py " Preview:<br>" ++ py "<img src=" ++ DQ), _.
    unfold ret. rewrite <- !app_assoc. reflexivity. }
  destruct Hrun as (pre & post & Hrun).
  eexists _, _. split; [exact Hrun|].
  split; [reflexivity|].
  split; [rewrite (issued_record _ _ _ _ _ Hrun eq_refl); reflexivity|].
  split; [reflexivity|].
  split; [|apply contains_middle].
  apply startswith_spec. eexists. rewrite <- !app_assoc. reflexivity.
Qed.

Lemma url_only_image_is_not_saved_witness :
  exists answer s',
    generate_ai_image b64decode_strict url_world (py "a red fox") empty_state
      = (Ok (Str answer), s')
    /\ trace s' = trace empty_state
                   ++ [ImagesGenerate (image_client (py "tg-test")) (image_order (py "a red fox"))]
    /\ filter touches_files
         (issued (generate_ai_image b64decode_strict url_world (py "a red fox")) empty_state)
       = []
    /\ files s' = files empty_state
    /\ startswith answer (CHECK_MARK ++ py " Image generated successfully via URL!") = true
    /\ contains answer (py "https://img.example/cat.png") = true.
Proof.
  apply (url_only_image_is_not_saved b64decode_strict url_world (py "a red fox") (py "tg-test")
           (py "https://img.example/cat.png")
           {| b64_json := None; url := Some (py "https://img.example/cat.png") |} []
           empty_state).
  - vm_compute. discriminate.
  - reflexivity.
  - discriminate.
  - reflexivity.
  - reflexivity.
  - reflexivity.
  - discriminate.
Defined.

(** ** What the tools send *)

Lemma emits_ret {A} (P : event -> Prop) (a : A) : emits P (ret a).
Proof. intros s. exists []. split; [symmetry; apply app_nil_r | constructor]. Qed.

Lemma emits_raise {A} (P : event -> Prop) (e : exn) : emits P (raise (A := A) e).
Proof. intros s. exists []. split; [symmetry; apply app_nil_r | constructor]. Qed.

Lemma emits_lift {A} (P : event -> Prop) (r : result A) : emits P (lift r).
Proof. intros s. exists []. split; [symmetry; apply app_nil_r | constructor]. Qed.

Lemma emits_bind {A B} (P : event -> Prop) (m : M State A) (k : A -> M State B) :
  emits P m -> (forall a, emits P (k a)) -> emits P (bind m k).
Proof.
  intros Hm Hk s. unfold bind.
  destruct (Hm s) as (evs & Ht & HP). destruct (m s) as [[a|e] s1]; simpl in Ht.
  - destruct (Hk a s1) as (evs' & Ht' & HP').
    exists (evs ++ evs'). split.
    + rewrite Ht', Ht, app_assoc. reflexivity.
    + apply Forall_app. split; assumption.
  - exists evs. split; assumption.
Qed.

Lemma emits_if {A} (P : event -> Prop) (b : bool) (m1 m2 : M State A) :
  emits P m1 -> emits P m2 -> emits P (if b then m1 else m2).
Proof. destruct b; intros; assumption. Qed.

Lemma emits_dispatch {A} (P : event -> Prop)
    (handlers : list (string * (exn -> M State A))) (e : exn) :
  Forall (fun h => forall e', emits P (snd h e')) handlers ->
  emits P (dispatch handlers e).
Proof.
  induction 1 as [|[cls h] rest Hh _ IH]; simpl.
  - apply emits_raise.
  - destruct (isinstance e cls); [apply Hh | exact IH].
Qed.

Lemma emits_try {A} (P : event -> Prop) (body : M State A)
    (handlers : list (string * (exn -> M State A))) :
  emits P body ->
  Forall (fun h => forall e', emits P (snd h e')) handlers ->
  emits P (try_except body handlers).
Proof.
  intros Hb Hh s. unfold try_except.
  destruct (Hb s) as (evs & Ht & HP). destruct (body s) as [[a|e] s1]; simpl in Ht.
  - exists evs. split; assumption.
  - destruct (emits_dispatch P handlers e Hh s1) as (evs' & Ht' & HP').
    exists (evs ++ evs'). split.
    + rewrite Ht', Ht, app_assoc. reflexivity.
    + apply Forall_app. split; assumption.
Qed.

(** A primitive that records one event. *)
Lemma emits_one {A} (P : event -> Prop) (m : M State A) (e : event) :
  (forall s, trace (snd (m s)) = trace s ++ [e]) -> P e -> emits P m.
Proof. intros Hm HP s. exists [e]. split; [apply Hm | repeat constructor; exact HP]. Qed.

Lemma emits_requests_get (P : event -> Prop) w target :
  (forall r, req_timeout r = None -> P (HttpRequest r)) -> emits P (requests_get w target).
Proof. intros HP. eapply emits_one; [reflexivity | apply HP; reflexivity]. Qed.

Lemma emits_requests_post (P : event -> Prop) w target headers payload timeout :
  (forall r, req_timeout r = timeout -> P (HttpRequest r)) ->
  emits P (requests_post w target headers payload timeout).
Proof. intros HP. eapply emits_one; [reflexivity | apply HP; reflexivity]. Qed.

Lemma emits_smtp (P : event -> Prop) w c : P (SmtpCall c) -> emits P (smtp w c).
Proof. intros HP. eapply emits_one; [reflexivity | exact HP]. Qed.

Lemma emits_images_generate (P : event -> Prop) w c r :
  P (ImagesGenerate c r) -> emits P (images_generate w c r).
Proof. intros HP. eapply emits_one; [reflexivity | exact HP]. Qed.

Lemma emits_makedirs (P : event -> Prop) w path :
  P (Makedirs path true) -> emits P (makedirs w path).
Proof. intros HP. eapply emits_one; [reflexivity | exact HP]. Qed.

Lemma emits_open_wb (P : event -> Prop) w path : P (OpenWb path) -> emits P (open_wb w path).
Proof.
  intros HP. eapply emits_one; [|exact HP].
  intros s. unfold open_wb. destruct (open_reply w path); reflexivity.
Qed.

Lemma emits_write (P : event -> Prop) w path content :
  P (WriteBytes path content) -> emits P (write w path content).
Proof.
  intros HP. eapply emits_one; [|exact HP].
  intros s. unfold write. destruct (write_reply w path content); reflexivity.
Qed.

Lemma emits_issued {A} (P : event -> Prop) (m : M State A) (s : State) :
  emits P m -> Forall P (issued m s).
Proof.
  intros Hm. destruct (Hm s) as (evs & Ht & HP).
  rewrite (issued_record m s (fst (m s)) (snd (m s)) evs); [exact HP | | exact Ht].
  destruct (m s); reflexivity.
Qed.

(** Syntax-directed proof that a tool body only emits events in [P];
    what is left are the conditions on the events themselves. *)
Ltac emits_step :=
  first
    [ apply emits_ret
    | apply emits_lift
    | apply emits_requests_get
    | apply emits_requests_post
    | apply emits_smtp
    | apply emits_images_generate
    | apply emits_makedirs
    | apply emits_open_wb
    | apply emits_write
    | apply emits_bind; [|intros]
    | apply emits_if
    | apply emits_try; [|repeat constructor; intros; apply emits_ret] ].

Ltac emits_all := repeat emits_step.

Lemma quiet_trace {A} (m : M State A) (s : State) :
  emits nothing m -> trace (snd (m s)) = trace s.
Proof.
  intros Hm. destruct (Hm s) as (evs & Ht & HP).
  destruct evs as [|e evs]; [rewrite Ht; apply app_nil_r | inversion HP as [|? ? []]].
Qed.

(** A [try] that starts with a POST, reads the response without further
    calls and handles exceptions without calls issues that one request. *)
Lemma try_post_issues_one {A} (w : World) (headers : list (pystr * pystr))
    (payload : chat_payload) (timeout : option Z) (k : Response -> M State A)
    (handlers : list (string * (exn -> M State A))) (s : State) :
  (forall a, emits nothing (k a)) ->
  Forall (fun h => forall e', emits nothing (snd h e')) handlers ->
  issued (try_except (do response <- requests_post w COMPLETIONS_URL headers payload timeout;
                      k response) handlers) s
  = [HttpRequest (completion_request headers payload timeout)].
Proof.
  intros Hk Hh.
  set (m := try_except _ _).
  apply (issued_record m s (fst (m s)) (snd (m s))); [destruct (m s); reflexivity|].
  unfold m, try_except, bind, requests_post. fold (completion_request headers payload timeout).
  destruct (http_reply w (completion_request headers payload timeout)) as [response|e].
  - pose proof (quiet_trace (k response)
        (record (HttpRequest (completion_request headers payload timeout)) s) (Hk response)) as Hq.
    destruct (k response _) as [[a|e] s1]; simpl in Hq |- *.
    + exact Hq.
    + rewrite (quiet_trace _ s1 (emits_dispatch nothing handlers e Hh)). exact Hq.
  - rewrite (quiet_trace _ _ (emits_dispatch nothing handlers e Hh)). reflexivity.
Qed.

Lemma first_choice_content_quiet (d : jvalue) : emits nothing (first_choice_content d).
Proof. unfold first_choice_content. emits_all. Qed.

Lemma search_web_issues (w : World) (query : pystr) (s : State) :
  falsy_opt (getenv w "OPENROUTER_API_KEY") = false ->
  exists headers payload,
    issued (search_web w query) s = [HttpRequest (completion_request headers payload None)].
Proof.
  intros Hkey. unfold search_web. rewrite Hkey. eexists _, _.
  apply try_post_issues_one.
  - intros a. unfold call_raise_for_status, call_json.
    emits_all.
  - repeat constructor; intros; apply emits_ret.
Qed.

Lemma generate_code_issues (w : World) (prompt : pystr) (s : State) :
  falsy_opt (getenv w "OPENROUTER_API_KEY") = false ->
  exists headers payload,
    issued (generate_code w prompt) s
    = [HttpRequest (completion_request headers payload (Some 30))].
Proof.
  intros Hkey. unfold generate_code. rewrite Hkey. eexists _, _.
  apply try_post_issues_one.
  - intros a. unfold call_raise_for_status, call_json.
    emits_all.
  - repeat constructor; intros; apply emits_ret.
Qed.

Lemma write_essay_issues (w : World) (topic : pystr) (words : Z) (s : State) :
  falsy_opt (getenv w "OPENROUTER_API_KEY") = false ->
  exists headers payload,
    issued (write_essay w topic words) s
    = [HttpRequest (completion_request headers payload None)].
Proof.
  intros Hkey. unfold write_essay. rewrite Hkey. eexists _, _.
  apply try_post_issues_one.
  - intros a. unfold call_raise_for_status, call_json.
    emits_all.
  - repeat constructor; intros; apply emits_ret.
Qed.

Lemma run_tool_timeouts b64decode (w : World) (c : tool_call) :
  emits (carries_timeout (expected_timeout c)) (run_tool b64decode w c).
Proof.
  destruct c; simpl run_tool.
  - unfold get_weather. emits_all. intros r Hr t [= <-]. exact Hr.
  - unfold search_web, call_raise_for_status, call_json, first_choice_content. emits_all.
    intros r Hr t [= <-]. exact Hr.
  - unfold send_email. emits_all; intros t [=].
  - unfold generate_ai_image. emits_all; try (intros t [= <-]; reflexivity).
    destruct a as [[[[|image_info rest]|]]|]; emits_all; intros t [=].
  - unfold generate_code, call_raise_for_status, call_json, first_choice_content. emits_all.
    intros r Hr t [= <-]. exact Hr.
  - unfold write_essay, call_raise_for_status, call_json, first_choice_content. emits_all.
    intros r Hr t [= <-]. exact Hr.
Qed.

(** C9: of the HTTP calls the six tools make, the one of [generate_code]
    is built with a timeout (30 seconds) and every other one with none: the
    request of [get_weather], sent on every call, and those of [search_web]
    and [write_essay], sent whenever the completion credential is set, carry
    no timeout, and the image client is built without one. *)
Theorem only_generate_code_sets_a_timeout
    (b64decode : pystr -> result (list Byte.byte)) (w : World) (s : State) :
  (forall c, Forall (carries_timeout (expected_timeout c)) (issued (run_tool b64decode w c) s))
  /\ (forall city, exists r,
        issued (get_weather w city) s = [HttpRequest r] /\ req_timeout r = None)
  /\ (falsy_opt (getenv w "OPENROUTER_API_KEY") = false ->
      (forall prompt, exists r,
          issued (generate_code w prompt) s = [HttpRequest r] /\ req_timeout r = Some 30)
      /\ (forall query, exists r,
          issued (search_web w query) s = [HttpRequest r] /\ req_timeout r = None)
      /\ (forall topic words, exists r,
          issued (write_essay w topic words) s = [HttpRequest r] /\ req_timeout r = None)).
Proof.
  split; [intros c; apply emits_issued, run_tool_timeouts|].
  split.
  - intros city. exists (weather_request city). split; [|reflexivity].
    eapply issued_record; [apply get_weather_run | reflexivity].
  - intros Hkey. split; [|split].
    + intros prompt. destruct (generate_code_issues w prompt s Hkey) as (h & p & H).
      eexists. split; [exact H | reflexivity].
    + intros query. destruct (search_web_issues w query s Hkey) as (h & p & H).
      eexists. split; [exact H | reflexivity].
    + intros topic words. destruct (write_essay_issues w topic words s Hkey) as (h & p & H).
      eexists. split; [exact H | reflexivity].
Qed.

(** The requests of the three completion tools, run against the same
    answering endpoint: only the one of [generate_code] has a timeout. *)
Example completion_timeouts :
  List.map http_timeout (issued (generate_code paris_world (py "sort a list")) empty_state)
    = [Some (Some 30)]
  /\ List.map http_timeout (issued (search_web paris_world (py "capital of France")) empty_state)
    = [Some None]
  /\ List.map http_timeout (issued (write_essay paris_world (py "rivers") 500) empty_state)
    = [Some None].
Proof. repeat split; vm_compute; reflexivity. Qed.

(** A 201 response is not a success for [get_weather] either. *)
Example get_weather_201 :
  fst (get_weather (with_http (Ok (text_response 201 london_body)) offline) (py "London")
         empty_state)
  = Ok (Str (py "Could not retrieve weather for London.")).
Proof. reflexivity. Qed.

(** A body without any choice is an error of shape: the lookup of the
    first choice raises, and the tool answers with the error's text. *)
Example search_web_no_choice :
  fst (search_web no_choice_world (py "capital of France") empty_state)
  = Ok (Str (py "Error talking to OpenRouter AI: list index out of range")).
Proof. vm_compute. reflexivity. Qed.

(** When the file cannot be opened the image tool answers a failure message
    and no file comes to exist. *)
Example generate_ai_image_read_only :
  exists s',
    generate_ai_image b64decode_strict read_only_world (py "a red fox") empty_state
    = (Ok (Str (WARNING_SIGN ++ py " Image generation failed: [Errno 13] Permission denied")), s')
    /\ files s' = ∅.
Proof. eexists. split; vm_compute; reflexivity. Qed.

(** * Further properties of the code *)

Lemma issued_trace {A} (m : M State A) (s : State) (evs : list event) :
  trace (snd (m s)) = trace s ++ evs -> issued m s = evs.
Proof. intros Ht. unfold issued. rewrite Ht. apply drop_app_length. Qed.

(** ** Sequences of calls *)

Lemma until_failure_prefix {C} (reply : C -> option exn) (calls : list C) :
  exists rest, calls = until_failure reply calls ++ rest.
Proof.
  induction calls as [|c calls IH]; simpl; [exists []; reflexivity|].
  destruct (reply c).
  - exists calls. reflexivity.
  - destruct IH as [rest IH]. exists rest. f_equal. exact IH.
Qed.



(** Every call made before the last one of the sequence returned. *)
Lemma until_failure_earlier {C} (reply : C -> option exn) (calls before after : list C) (c : C) :
  until_failure reply calls = before ++ c :: after ->
  Forall (fun b => reply b = None) before.
Proof.
  revert before. induction calls as [|d calls IH]; intros before H; simpl in H.
  - destruct before; discriminate.
  - destruct before as [|b before]; [constructor|].
    injection H as -> H. destruct (reply b) eqn:Hb.
    + destruct before; discriminate.
    + constructor; [exact Hb | apply IH; exact H].
Qed.

(** ** The mail session *)

Lemma send_email_session (w : World) (to_email subject message : pystr)
    (cc_email : option pystr) (s : State) :
  falsy_opt (getenv w "GMAIL_USER") = false ->
  falsy_opt (getenv w "GMAIL_APP_PASSWORD") = false ->
  trace (snd (send_email w to_email subject message cc_email s))
  = trace s ++ List.map SmtpCall
      (until_failure (smtp_reply w)
         (mail_session (the (getenv w "GMAIL_USER")) (the (getenv w "GMAIL_APP_PASSWORD"))
            to_email subject message cc_email))
  /\ files (snd (send_email w to_email subject message cc_email s)) = files s.
Proof.
  intros Huser Hpassword.
  unfold send_email, try_except. rewrite Huser, Hpassword. cbv beta iota delta [orb].
  unfold mail_session, mail_recipients, mail_headers.
  replace (if falsy_opt cc_email then [to_email] else [to_email] ++ [the cc_email])
    with (if falsy_opt cc_email then [to_email] else [to_email; the cc_email])
    by (destruct (falsy_opt cc_email); reflexivity).
  replace (if falsy_opt cc_email
           then [(py "From", the (getenv w "GMAIL_USER")); (py "To", to_email);
                 (py "Subject", subject)]
           else [(py "From", the (getenv w "GMAIL_USER")); (py "To", to_email);
                 (py "Subject", subject)] ++ [(py "Cc", the cc_email)])
    with ([(py "From", the (getenv w "GMAIL_USER")); (py "To", to_email);
           (py "Subject", subject)]
          ++ (if falsy_opt cc_email then [] else [(py "Cc", the cc_email)]))
    by (destruct (falsy_opt cc_email); reflexivity).
  set (c1 := SMTP _ _). set (c3 := login _ _). set (c4 := sendmail _ _ _).
  unfold bind, smtp, of_option. simpl until_failure.
  destruct (smtp_reply w c1) as [e1|];
    [simpl; destruct (isinstance e1 _); [|destruct (isinstance e1 _)]; simpl; split; reflexivity|].
  destruct (smtp_reply w starttls) as [e2|];
    [simpl; destruct (isinstance e2 _); [|destruct (isinstance e2 _)]; simpl;
     rewrite <- !app_assoc; split; reflexivity|].
  destruct (smtp_reply w c3) as [e3|];
    [simpl; destruct (isinstance e3 _); [|destruct (isinstance e3 _)]; simpl;
     rewrite <- !app_assoc; split; reflexivity|].
  destruct (smtp_reply w c4) as [e4|];
    [simpl; destruct (isinstance e4 _); [|destruct (isinstance e4 _)]; simpl;
     rewrite <- !app_assoc; split; reflexivity|].
  destruct (smtp_reply w quit) as [e5|];
    [simpl; destruct (isinstance e5 _); [|destruct (isinstance e5 _)]; simpl;
     rewrite <- !app_assoc; split; reflexivity|].
  simpl. rewrite <- !app_assoc. split; reflexivity.
Qed.

Lemma until_failure_In {C} (reply : C -> option exn) (calls : list C) (c : C) :
  In c (until_failure reply calls) ->
  exists before after after',
    until_failure reply calls = before ++ c :: after
    /\ calls = before ++ c :: after'
    /\ Forall (fun b => reply b = None) before.
Proof.
  intros Hin. apply in_split in Hin as (before & after & Hu).
  destruct (until_failure_prefix reply calls) as [rest Hrest].
  exists before, after, (after ++ rest). split; [exact Hu|]. split.
  - rewrite Hrest at 1. rewrite Hu, <- app_assoc. reflexivity.
  - apply (until_failure_earlier reply calls before after c Hu).
Qed.

Lemma In_map_SmtpCall (c : smtp_call) (calls : list smtp_call) :
  In (SmtpCall c) (List.map SmtpCall calls) -> In c calls.
Proof.
  intros H. apply in_map_iff in H as (c' & [= ->] & H). exact H.
Qed.

(** The mail calls of [send_email]: none without both credentials, and
    otherwise the session up to its first failure. *)
Lemma send_email_issued (w : World) (to_email subject message : pystr)
    (cc_email : option pystr) (s : State) :
  issued (send_email w to_email subject message cc_email) s
  = if falsy_opt (getenv w "GMAIL_USER") || falsy_opt (getenv w "GMAIL_APP_PASSWORD")
    then []
    else List.map SmtpCall
           (until_failure (smtp_reply w)
              (mail_session (the (getenv w "GMAIL_USER")) (the (getenv w "GMAIL_APP_PASSWORD"))
                 to_email subject message cc_email)).
Proof.
  destruct (falsy_opt (getenv w "GMAIL_USER")) eqn:Hu;
    [|destruct (falsy_opt (getenv w "GMAIL_APP_PASSWORD")) eqn:Hp]; simpl orb; cbv iota.
  - eapply issued_nothing. apply send_email_without_credentials. left. exact Hu.
  - eapply issued_nothing. apply send_email_without_credentials. right. exact Hp.
  - destruct (send_email_session w to_email subject message cc_email s Hu Hp) as [Ht _].
    apply issued_trace. exact Ht.
Qed.



(** X2: the account name and password leave the process only in a login
    call made after the connection to smtp.gmail.com:587 was opened and its
    upgrade to TLS returned normally: whenever [send_email] issues a login,
    a STARTTLS call stands before it in the trace, both earlier calls
    succeeded, and the login carries the two values of the environment. *)
Theorem login_only_after_starttls (w : World) (to_email subject message : pystr)
    (cc_email : option pystr) (s : State) (user password : pystr) :
  In (SmtpCall (login user password))
     (issued (send_email w to_email subject message cc_email) s) ->
  smtp_reply w (SMTP (py "smtp.gmail.com") 587) = None
  /\ smtp_reply w starttls = None
  /\ getenv w "GMAIL_USER" = Some user
  /\ getenv w "GMAIL_APP_PASSWORD" = Some password
  /\ exists after,
       issued (send_email w to_email subject message cc_email) s
       = SmtpCall (SMTP (py "smtp.gmail.com") 587) :: SmtpCall starttls
         :: SmtpCall (login user password) :: after.
Proof.
  rewrite send_email_issued.
  destruct (falsy_opt (getenv w "GMAIL_USER")) eqn:Hu;
    [intros []|destruct (falsy_opt (getenv w "GMAIL_APP_PASSWORD")) eqn:Hp; [intros []|]].
  simpl orb. cbv iota. intros Hin. apply In_map_SmtpCall in Hin.
  apply until_failure_In in Hin as (before & after & after' & Hrun & Hsplit & Hok).
  rewrite Hrun. clear Hrun.
  destruct before as [|b1 before]; [discriminate Hsplit|].
  destruct before as [|b2 before]; [discriminate Hsplit|].
  destruct before as [|b3 before].
  - injection Hsplit as <- <- Huser Hpassword _.
    inversion Hok as [|? ? H1 Hok']. inversion Hok' as [|? ? H2 _]. subst.
    split; [exact H1|]. split; [exact H2|].
    split; [destruct (getenv w "GMAIL_USER"); [reflexivity | discriminate Hu]|].
    split; [destruct (getenv w "GMAIL_APP_PASSWORD"); [reflexivity | discriminate Hp]|].
    exists (List.map SmtpCall after). reflexivity.
  - exfalso. injection Hsplit as _ _ _ Hsplit.
    destruct before as [|b4 before]; [discriminate Hsplit|].
    injection Hsplit as _ Hsplit.
    destruct before as [|b5 before]; [discriminate Hsplit|].
    injection Hsplit as _ Hsplit. destruct before; discriminate Hsplit.
Qed.

Lemma login_only_after_starttls_witness :
  smtp_reply login_refused (SMTP (py "smtp.gmail.com") 587) = None
  /\ smtp_reply login_refused starttls = None
  /\ getenv login_refused "GMAIL_USER" = Some (py "mia@example.com")
  /\ getenv login_refused "GMAIL_APP_PASSWORD" = Some (py "app-password")
  /\ exists after,
       issued (send_email login_refused (py "boss@example.com") (py "Hello")
                 (py "Good morning.") None) empty_state
       = SmtpCall (SMTP (py "smtp.gmail.com") 587) :: SmtpCall starttls
         :: SmtpCall (login (py "mia@example.com") (py "app-password")) :: after.
Proof.
  apply (login_only_after_starttls login_refused (py "boss@example.com") (py "Hello")
           (py "Good morning.") None empty_state).
  vm_compute. right. right. left. reflexivity.
Defined.

(** X3: the copy address counts only when it is a non-empty string.  Every
    sendmail call of [send_email] is from the configured account and carries
    the From, To and Subject headers and the message as one plain-text part;
    with [cc_email] absent or empty the envelope is the recipient alone and
    there is no Cc header, and with a non-empty [cc_email] the envelope is
    the recipient followed by the copy address and a Cc header names it. *)
Theorem copy_address_only_when_non_empty (w : World) (to_email subject message : pystr)
    (cc_email : option pystr) (s : State) (sender : pystr) (to_addrs : list pystr)
    (msg : mime_message) :
  In (SmtpCall (sendmail sender to_addrs msg))
     (issued (send_email w to_email subject message cc_email) s) ->
  getenv w "GMAIL_USER" = Some sender
  /\ mime_attached msg = [(py "plain", message)]
  /\ (cc_email = None \/ cc_email = Some [] ->
      to_addrs = [to_email]
      /\ mime_headers msg
         = [(py "From", sender); (py "To", to_email); (py "Subject", subject)])
  /\ (forall cc, cc_email = Some cc -> cc <> [] ->
      to_addrs = [to_email; cc]
      /\ mime_headers msg
         = [(py "From", sender); (py "To", to_email); (py "Subject", subject);
            (py "Cc", cc)]).
Proof.
  rewrite send_email_issued.
  destruct (falsy_opt (getenv w "GMAIL_USER")) eqn:Hu;
    [intros []|destruct (falsy_opt (getenv w "GMAIL_APP_PASSWORD")) eqn:Hp; [intros []|]].
  simpl orb. cbv iota. intros Hin. apply In_map_SmtpCall in Hin.
  apply until_failure_In in Hin as (before & after & after' & _ & Hsplit & _).
  assert (Hcall : sendmail sender to_addrs msg
                  = sendmail (the (getenv w "GMAIL_USER")) (mail_recipients to_email cc_email)
                      {| mime_headers :=
                           mail_headers (the (getenv w "GMAIL_USER")) to_email subject cc_email;
                         mime_attached := [(py "plain", message)] |}).
  { unfold mail_session in Hsplit.
    destruct before as [|b1 before]; [discriminate Hsplit|].
    destruct before as [|b2 before]; [discriminate Hsplit|].
    destruct before as [|b3 before]; [discriminate Hsplit|].
    destruct before as [|b4 before].
    - injection Hsplit as _ _ _ <- <- <- _. reflexivity.
    - injection Hsplit as _ _ _ _ Hsplit.
      destruct before as [|b5 before]; [discriminate Hsplit|].
      injection Hsplit as _ Hsplit. destruct before; discriminate Hsplit. }
  injection Hcall as -> -> ->. simpl.
  split; [destruct (getenv w "GMAIL_USER"); [reflexivity | discriminate Hu]|].
  split; [reflexivity|].
  split.
  - intros [-> | ->]; split; reflexivity.
  - intros cc -> Hcc. destruct cc; [destruct (Hcc eq_refl)|]. split; reflexivity.
Qed.

Lemma copy_address_only_when_non_empty_witness :
  getenv sender_refused "GMAIL_USER" = Some (py "mia@example.com")
  /\ mime_attached
       {| mime_headers := [(py "From", py "mia@example.com"); (py "To", py "boss@example.com");
                           (py "Subject", py "Hello"); (py "Cc", py "team@example.com")];
          mime_attached := [(py "plain", py "Good morning.")] |}
     = [(py "plain", py "Good morning.")]
  /\ (Some (py "team@example.com") = None \/ Some (py "team@example.com") = Some [] ->
      [py "boss@example.com"; py "team@example.com"] = [py "boss@example.com"]
      /\ mime_headers
           {| mime_headers := [(py "From", py "mia@example.com");
                               (py "To", py "boss@example.com");
                               (py "Subject", py "Hello"); (py "Cc", py "team@example.com")];
              mime_attached := [(py "plain", py "Good morning.")] |}
         = [(py "From", py "mia@example.com"); (py "To", py "boss@example.com");
            (py "Subject", py "Hello")])
  /\ (forall cc, Some (py "team@example.com") = Some cc -> cc <> [] ->
      [py "boss@example.com"; py "team@example.com"] = [py "boss@example.com"; cc]
      /\ mime_headers
           {| mime_headers := [(py "From", py "mia@example.com");
                               (py "To", py "boss@example.com");
                               (py "Subject", py "Hello"); (py "Cc", py "team@example.com")];
              mime_attached := [(py "plain", py "Good morning.")] |}
         = [(py "From", py "mia@example.com"); (py "To", py "boss@example.com");
            (py "Subject", py "Hello"); (py "Cc", cc)]).
Proof.
  apply (copy_address_only_when_non_empty sender_refused (py "boss@example.com") (py "Hello")
           (py "Good morning.") (Some (py "team@example.com")) empty_state
           (py "mia@example.com") [py "boss@example.com"; py "team@example.com"]
           {| mime_headers := [(py "From", py "mia@example.com");
                               (py "To", py "boss@example.com");
                               (py "Subject", py "Hello"); (py "Cc", py "team@example.com")];
              mime_attached := [(py "plain", py "Good morning.")] |}).
  vm_compute. right. right. right. left. reflexivity.
Defined.

(** ** The entrypoint *)



(** ** The effects of the image tool *)

Ltac image_called_leaf key Hkey Hprompt :=
  simpl; intros [= <- <-]; eexists _, _; split; [reflexivity|]; split; [reflexivity|];
  apply (image_called _ _ _ _ key); [exact Hkey | discriminate | exact Hprompt].

Ltac image_not_called_leaf :=
  simpl; intros [= <- <-]; eexists [], _; split; [symmetry; apply app_nil_r|];
  split; [reflexivity | constructor].

Lemma generate_ai_image_effects b64decode (w : World) (prompt : pystr) (s : State) :
  image_effects b64decode w prompt (files s)
    (issued (generate_ai_image b64decode w prompt) s)
    (files (snd (generate_ai_image b64decode w prompt s))).
Proof.
  assert (H : exists evs after,
    trace (snd (generate_ai_image b64decode w prompt s)) = trace s ++ evs
    /\ files (snd (generate_ai_image b64decode w prompt s)) = after
    /\ image_effects b64decode w prompt (files s) evs after).
  { destruct (generate_ai_image b64decode w prompt s) as [r st] eqn:Hrun.
    simpl snd. revert Hrun. unfold generate_ai_image, try_except.
    destruct (falsy prompt || (len (strip prompt) <? 3)) eqn:Hshort;
      [image_not_called_leaf|].
    assert (Hprompt : 3 <= len (strip prompt)).
    { apply orb_false_iff in Hshort as [_ H]. apply Z.ltb_ge in H. exact H. }
    destruct (getenv w "TOGETHER_API_KEY") as [[|k key]|] eqn:Hkey;
      [image_not_called_leaf| |image_not_called_leaf].
    change (falsy_opt (Some (k :: key))) with false. cbv iota.
    change (the (Some (k :: key))) with (k :: key).
    unfold bind at 1. unfold images_generate.
    fold (image_client (k :: key)) (image_order prompt).
    destruct (images_reply w (image_client (k :: key)) (image_order prompt))
      as [[[[[|item others]|]]|]|e] eqn:Hreply;
      try (image_called_leaf (k :: key) Hkey Hprompt).
    destruct item as [[[|p payload]|] [[|l link]|]]; cbn [b64_json url falsy_opt falsy andb negb];
      try (image_called_leaf (k :: key) Hkey Hprompt).
    all: change (the (Some (p :: payload))) with (p :: payload).
    all: unfold bind, lift, makedirs, open_wb, write, of_option.
    all: fold (pictures_folder w); fold (image_path w).
    all: destruct (b64decode (p :: payload)) as [bytes|e] eqn:Hdecode;
      [|image_called_leaf (k :: key) Hkey Hprompt].
    all: destruct (makedirs_reply w (pictures_folder w)) as [e1|] eqn:Hmk;
      [|destruct (open_reply w (image_path w)) as [e2|] eqn:Hopen;
        [|destruct (write_reply w (image_path w) bytes) as [e3|] eqn:Hwrite]].
    all: simpl; intros [= <- <-]; eexists _, _;
      (split; [simpl; rewrite <- ?app_assoc; reflexivity|]);
      (split; [reflexivity|]); simpl; rewrite ?insert_insert_eq;
      eapply (image_decoded _ _ _ _ (k :: key) (p :: payload));
      [exact Hkey | discriminate | exact Hprompt | exact Hreply | reflexivity | discriminate
      | exact Hdecode |];
      econstructor; eassumption. }
  destruct H as (evs & after & Ht & Hf & He).
  rewrite (issued_trace _ _ _ Ht), Hf. exact He.
Qed.

(** ** Stripping *)

Lemma lstrip_head (s : pystr) :
  lstrip s = [] \/ exists c t, lstrip s = c :: t /\ py_isspace c = false.
Proof.
  induction s as [|c s IH]; simpl; [left; reflexivity|].
  destruct (py_isspace c) eqn:Hc; [exact IH|].
  right. exists c, s. split; [reflexivity | exact Hc].
Qed.

Lemma lstrip_snoc (l : pystr) (c : N) :
  py_isspace c = false -> lstrip (l ++ [c]) = lstrip l ++ [c].
Proof.
  intros Hc. induction l as [|x l IH]; simpl.
  - rewrite Hc. reflexivity.
  - destruct (py_isspace x); [exact IH | reflexivity].
Qed.

Lemma rstrip_cons (c : N) (t : pystr) :
  py_isspace c = false -> rstrip (c :: t) = c :: rstrip t.
Proof.
  intros Hc. unfold rstrip. simpl rev.
  rewrite (lstrip_snoc _ _ Hc), rev_app_distr. reflexivity.
Qed.

Lemma lstrip_idempotent (s : pystr) : lstrip (lstrip s) = lstrip s.
Proof.
  destruct (lstrip_head s) as [-> | (c & t & -> & Hc)]; [reflexivity|].
  simpl. rewrite Hc. reflexivity.
Qed.

Lemma rstrip_idempotent (s : pystr) : rstrip (rstrip s) = rstrip s.
Proof. unfold rstrip. rewrite rev_involutive, lstrip_idempotent. reflexivity. Qed.

(** A stripped string has no whitespace at either end: stripping it again,
    from the left, from the right or from both sides, changes nothing. *)
Lemma strip_clean (s : pystr) :
  lstrip (strip s) = strip s /\ rstrip (strip s) = strip s /\ strip (strip s) = strip s.
Proof.
  assert (Hl : lstrip (strip s) = strip s).
  { unfold strip. destruct (lstrip_head s) as [-> | (c & t & -> & Hc)]; [reflexivity|].
    rewrite (rstrip_cons _ _ Hc). simpl. rewrite Hc. reflexivity. }
  assert (Hr : rstrip (strip s) = strip s).
  { unfold strip. apply rstrip_idempotent. }
  split; [exact Hl|]. split; [exact Hr|].
  unfold strip at 1. rewrite Hl. exact Hr.
Qed.

(** ** More on image generation *)

Lemma image_saving_local (w : World) (bytes : list Byte.byte)
    (before after : gmap (list N) (list Byte.byte)) (steps : list event) :
  image_saving w bytes before steps after ->
  filter outbound steps = []
  /\ (forall p, p <> image_path w -> after !! p = before !! p).
Proof.
  intros H. destruct H; (split; [reflexivity|]); intros p Hp;
    try reflexivity; apply lookup_insert_ne; congruence.
Qed.

(** X5: whatever the image service and the file system answer,
    [generate_ai_image] leaves every file other than its image file, the
    file [ai_image_<stamp>.png] directly inside the [Pictures] folder of the
    home directory, as it was. *)
Theorem image_tool_changes_one_path_at_most
    (b64decode : pystr -> result (list Byte.byte)) (w : World) (prompt : pystr) (s : State)
    (p : pystr) :
  p <> path_join (path_join (home w) (py "Pictures"))
         (py "ai_image_" ++ strftime (now w) (py "%Y%m%d_%H%M%S") ++ py ".png") ->
  files (snd (generate_ai_image b64decode w prompt s)) !! p = files s !! p.
Proof.
  intros Hp. pose proof (generate_ai_image_effects b64decode w prompt s) as H.
  inversion H as [| |key payload item others bytes steps after _ _ _ _ _ _ _ Hsave];
    try reflexivity.
  apply (image_saving_local _ _ _ _ _ Hsave). exact Hp.
Qed.

Lemma image_tool_changes_one_path_at_most_witness :
  files (snd (generate_ai_image b64decode_strict base64_world (py "a red fox") empty_state))
    !! py "/home/mia/Pictures/notes.txt"
  = files empty_state !! py "/home/mia/Pictures/notes.txt".
Proof.
  apply (image_tool_changes_one_path_at_most b64decode_strict base64_world (py "a red fox")
           empty_state (py "/home/mia/Pictures/notes.txt")).
  vm_compute. discriminate.
Defined.

Lemma image_saving_steps (w : World) (bytes : list Byte.byte)
    (before after : gmap (list N) (list Byte.byte)) (steps : list event) :
  image_saving w bytes before steps after ->
  (forall c r, ~ In (ImagesGenerate c r) steps)
  /\ (forall folder exist_ok, In (Makedirs folder exist_ok) steps ->
        folder = pictures_folder w /\ exist_ok = true)
  /\ (forall path, In (OpenWb path) steps ->
        path = image_path w /\ makedirs_reply w (pictures_folder w) = None)
  /\ (forall path content, In (WriteBytes path content) steps ->
        path = image_path w /\ content = bytes
        /\ makedirs_reply w (pictures_folder w) = None
        /\ open_reply w (image_path w) = None).
Proof.
  intros H. destruct H; (split; [|split; [|split]]); unfold not; intros; simpl in *;
    repeat match goal with
           | H : _ \/ _ |- _ => destruct H
           | H : False |- _ => destruct H
           | H : Makedirs _ _ = Makedirs _ _ |- _ => injection H as <- <-
           | H : OpenWb _ = OpenWb _ |- _ => injection H as <-
           | H : WriteBytes _ _ = WriteBytes _ _ |- _ => injection H as <- <-
           | H : _ = _ |- _ => discriminate H
           end; repeat split; try reflexivity; try assumption.
Qed.

(** X6: the image service is only ever called with a usable order: the
    prompt it receives is the caller's prompt stripped, has at least three
    characters and no whitespace at either end; the key is the non-empty
    value of the environment; the model, the 4 steps, the single image and
    the 1024x1024 size are fixed; and that call is the only call that leaves
    the process. *)
Theorem image_service_gets_a_clean_order
    (b64decode : pystr -> result (list Byte.byte)) (w : World) (prompt : pystr) (s : State)
    (c : together_client) (r : image_request) :
  In (ImagesGenerate c r) (issued (generate_ai_image b64decode w prompt) s) ->
  img_prompt r = strip prompt
  /\ 3 <= len (img_prompt r)
  /\ lstrip (img_prompt r) = img_prompt r /\ rstrip (img_prompt r) = img_prompt r
  /\ getenv w "TOGETHER_API_KEY" = Some (api_key c) /\ api_key c <> []
  /\ client_timeout c = None
  /\ img_model r = py "black-forest-labs/FLUX.1-schnell-Free"
  /\ (img_steps r, img_n r, img_height r, img_width r) = (4, 1, 1024, 1024)
  /\ filter outbound (issued (generate_ai_image b64decode w prompt) s) = [ImagesGenerate c r].
Proof.
  intros Hin. pose proof (generate_ai_image_effects b64decode w prompt s) as H.
  destruct (strip_clean prompt) as (Hl & Hr & _).
  inversion H as [Hev Hf|key Hkey Hkey' Hlen Hev Hf
                 |key payload item others bytes steps after Hkey Hkey' Hlen Hreply Hb64 Hb64'
                    Hdecode Hsave Hev Hf];
    try rewrite <- Hev in Hin; try rewrite <- Hev.
  - destruct Hin.
  - destruct Hin as [[= <- <-]|[]]. repeat split; assumption.
  - destruct (image_saving_steps _ _ _ _ _ Hsave) as (Hno & _).
    destruct (image_saving_local _ _ _ _ _ Hsave) as (Hlocal & _).
    destruct Hin as [[= <- <-]|Hin]; [|destruct (Hno _ _ Hin)].
    repeat split; try assumption.
    rewrite filter_cons_True by exact I. rewrite Hlocal. reflexivity.
Qed.

Lemma image_service_gets_a_clean_order_witness :
  img_prompt (image_order (py "  a red fox ")) = strip (py "  a red fox ")
  /\ 3 <= len (img_prompt (image_order (py "  a red fox ")))
  /\ lstrip (img_prompt (image_order (py "  a red fox ")))
     = img_prompt (image_order (py "  a red fox "))
  /\ rstrip (img_prompt (image_order (py "  a red fox ")))
     = img_prompt (image_order (py "  a red fox "))
  /\ getenv url_world "TOGETHER_API_KEY" = Some (api_key (image_client (py "tg-test")))
  /\ api_key (image_client (py "tg-test")) <> []
  /\ client_timeout (image_client (py "tg-test")) = None
  /\ img_model (image_order (py "  a red fox ")) = py "black-forest-labs/FLUX.1-schnell-Free"
  /\ (img_steps (image_order (py "  a red fox ")), img_n (image_order (py "  a red fox ")),
      img_height (image_order (py "  a red fox ")), img_width (image_order (py "  a red fox ")))
     = (4, 1, 1024, 1024)
  /\ filter outbound (issued (generate_ai_image b64decode_strict url_world (py "  a red fox "))
                        empty_state)
     = [ImagesGenerate (image_client (py "tg-test")) (image_order (py "  a red fox "))].
Proof.
  apply (image_service_gets_a_clean_order b64decode_strict url_world (py "  a red fox ")
           empty_state (image_client (py "tg-test")) (image_order (py "  a red fox "))).
  vm_compute. left. reflexivity.
Defined.

(** X7: the file system is touched in a fixed order and only on the way
    to saving a decoded image: a folder is only ever made at the [Pictures]
    folder of the home directory (existing or not); a file is only ever
    opened at the image path and after the folder call returned; bytes are
    only ever written to that path, after the open returned, and they are
    the bytes the first item's base64 text decodes to. *)
Theorem files_are_touched_in_order
    (b64decode : pystr -> result (list Byte.byte)) (w : World) (prompt : pystr) (s : State) :
  let folder := path_join (home w) (py "Pictures") in
  let path :=
    path_join folder (py "ai_image_" ++ strftime (now w) (py "%Y%m%d_%H%M%S") ++ py ".png") in
  let steps := issued (generate_ai_image b64decode w prompt) s in
  (forall f exist_ok, In (Makedirs f exist_ok) steps -> f = folder /\ exist_ok = true)
  /\ (forall p, In (OpenWb p) steps -> p = path /\ makedirs_reply w folder = None)
  /\ (forall p content, In (WriteBytes p content) steps ->
        p = path /\ makedirs_reply w folder = None /\ open_reply w path = None
        /\ exists key item others payload,
             images_reply w (image_client key) (image_order prompt)
               = Ok (Some {| data := Some (item :: others) |})
             /\ b64_json item = Some payload
             /\ b64decode payload = Ok content).
Proof.
  intros folder path steps. subst steps.
  pose proof (generate_ai_image_effects b64decode w prompt s) as H.
  inversion H as [Hev Hf|key Hkey Hkey' Hlen Hev Hf
                 |key payload item others bytes fs after Hkey Hkey' Hlen Hreply Hb64 Hb64'
                    Hdecode Hsave Hev Hf];
    try rewrite <- Hev.
  1, 2: split; [|split]; intros; simpl in *;
    repeat match goal with
           | H : _ \/ _ |- _ => destruct H
           | H : False |- _ => destruct H
           | H : _ = _ |- _ => discriminate H
           end.
  destruct (image_saving_steps _ _ _ _ _ Hsave) as (_ & Hmk & Hopen & Hwrite).
  split; [|split].
  - intros f ok [Hin|Hin]; [discriminate Hin | exact (Hmk _ _ Hin)].
  - intros p [Hin|Hin]; [discriminate Hin | exact (Hopen _ Hin)].
  - intros p content [Hin|Hin]; [discriminate Hin|].
    destruct (Hwrite _ _ Hin) as (-> & -> & H1 & H2).
    split; [reflexivity|]. split; [exact H1|]. split; [exact H2|].
    exists key, item, others, payload. repeat split; assumption.
Qed.

(** The run of the image tool up to the answer of the service. *)
Lemma generate_ai_image_called b64decode (w : World) (prompt key : pystr) (s : State) :
  3 <= len (strip prompt) ->
  getenv w "TOGETHER_API_KEY" = Some key -> key <> [] ->
  generate_ai_image b64decode w prompt s
  = try_except
      (do response <- lift (images_reply w (image_client key) (image_order prompt));
       match response with
       | Some {| data := Some (image_info :: _) |} =>
           let image_base64 := b64_json image_info in
           let image_url := url image_info in
           if falsy_opt image_base64 && falsy_opt image_url then
             ret (Str (CROSS_MARK ++ py " Image generation failed: no usable output."))
           else if negb (falsy_opt image_base64) then
             do image_bytes <- lift (b64decode (the image_base64));
             do_ makedirs w (pictures_folder w);
             do_ open_wb w (image_path w);
             do_ write w (image_path w) image_bytes;
             ret (Str (CHECK_MARK ++ py " Image generated successfully!<br>"
                       ++ FILE_FOLDER ++ py " Saved to: `" ++ image_path w ++ py "`<br>"
                       ++ FRAMED_PICTURE ++ py " Preview:<br>"
                       ++ py "<img src=" ++ DQ
                       ++ (py "data:image/png;base64," ++ the image_base64) ++ DQ
                       ++ py " alt=" ++ DQ ++ prompt ++ DQ
                       ++ py " style=" ++ DQ ++ IMG_STYLE ++ DQ ++ py "/><br>"
                       ++ py "<a href=" ++ DQ
                       ++ (py "data:image/png;base64," ++ the image_base64) ++ DQ
                       ++ py " download=" ++ DQ ++ py "ai_image.png" ++ DQ
                       ++ py " style=" ++ DQ ++ LINK_STYLE ++ DQ ++ py ">"
                       ++ DOWN_ARROW ++ py " Download Image</a>"))
           else if negb (falsy_opt image_url) then
             ret (Str (CHECK_MARK ++ py " Image generated successfully via URL!<br>"
                       ++ FRAMED_PICTURE ++ py " Preview:<br>"
                       ++ py "<img src=" ++ DQ ++ the image_url ++ DQ
                       ++ py " alt=" ++ DQ ++ prompt ++ DQ
                       ++ py " style=" ++ DQ ++ IMG_STYLE ++ DQ ++ py "/><br>"
                       ++ py "<a href=" ++ DQ ++ the image_url ++ DQ
                       ++ py " download=" ++ DQ ++ py "ai_image.png" ++ DQ
                       ++ py " style=" ++ DQ ++ LINK_STYLE ++ DQ ++ py ">"
                       ++ DOWN_ARROW ++ py " Download Image</a>"))
           else ret PyNone
       | _ => ret (Str (CROSS_MARK ++ py " No image data was returned. Try a different prompt."))
       end)
      [("Exception"%string, fun e =>
         ret (Str (WARNING_SIGN ++ py " Image generation failed: " ++ exn_str e)))]
      (record (ImagesGenerate (image_client key) (image_order prompt)) s).
Proof.
  intros Hprompt Hkey Hkey'.
  unfold generate_ai_image, try_except.
  rewrite (long_prompt_passes _ Hprompt), Hkey.
  change (falsy_opt (Some key)) with (falsy key). rewrite (truthy_key _ Hkey').
  change (the (Some key)) with key. unfold bind at 1 3. unfold images_generate, lift.
  reflexivity.
Qed.

(** The state after a payload was decoded and saved without a failure. *)
Lemma generate_ai_image_saved_files b64decode (w : World) (prompt key payload : pystr)
    (bytes : list Byte.byte) (item : image_item) (others : list image_item) (s : State) :
  3 <= len (strip prompt) ->
  getenv w "TOGETHER_API_KEY" = Some key -> key <> [] ->
  images_reply w (image_client key) (image_order prompt)
    = Ok (Some {| data := Some (item :: others) |}) ->
  b64_json item = Some payload -> payload <> [] ->
  b64decode payload = Ok bytes ->
  makedirs_reply w (pictures_folder w) = None ->
  open_reply w (image_path w) = None ->
  write_reply w (image_path w) bytes = None ->
  files (snd (generate_ai_image b64decode w prompt s)) = <[image_path w := bytes]> (files s).
Proof.
  intros Hprompt Hkey Hkey' Hreply Hb64 Hb64' Hdecode Hmk Hopen Hwrite.
  rewrite (generate_ai_image_called b64decode w prompt key s Hprompt Hkey Hkey').
  unfold try_except. unfold bind at 1. unfold lift at 1. rewrite Hreply. cbv beta iota.
  rewrite Hb64. change (falsy_opt (Some payload)) with (falsy payload).
  rewrite (truthy_key _ Hb64'). cbv beta iota delta [andb negb].
  change (the (Some payload)) with payload.
  unfold bind, lift, makedirs, open_wb, write, of_option.
  rewrite Hdecode, Hmk, Hopen, Hwrite. simpl. apply insert_insert_eq.
Qed.

(** X8: the file name has the clock's second as its only variable part, so
    two images saved while the clock shows the same second go to the same
    path: after the second call that file holds the second image and the
    first image is gone from the disk. *)
Theorem same_second_images_share_one_file
    (b64decode : pystr -> result (list Byte.byte)) (w : World) (key : pystr)
    (prompt1 prompt2 payload1 payload2 : pystr) (bytes1 bytes2 : list Byte.byte)
    (item1 item2 : image_item) (others1 others2 : list image_item) (s : State) :
  let path :=
    path_join (path_join (home w) (py "Pictures"))
      (py "ai_image_" ++ strftime (now w) (py "%Y%m%d_%H%M%S") ++ py ".png") in
  getenv w "TOGETHER_API_KEY" = Some key -> key <> [] ->
  3 <= len (strip prompt1) -> 3 <= len (strip prompt2) ->
  images_reply w (image_client key) (image_order prompt1)
    = Ok (Some {| data := Some (item1 :: others1) |}) ->
  images_reply w (image_client key) (image_order prompt2)
    = Ok (Some {| data := Some (item2 :: others2) |}) ->
  b64_json item1 = Some payload1 -> payload1 <> [] -> b64decode payload1 = Ok bytes1 ->
  b64_json item2 = Some payload2 -> payload2 <> [] -> b64decode payload2 = Ok bytes2 ->
  makedirs_reply w (path_join (home w) (py "Pictures")) = None ->
  open_reply w path = None ->
  write_reply w path bytes1 = None -> write_reply w path bytes2 = None ->
  let s1 := snd (generate_ai_image b64decode w prompt1 s) in
  let s2 := snd (generate_ai_image b64decode w prompt2 s1) in
  files s1 !! path = Some bytes1
  /\ files s2 !! path = Some bytes2
  /\ files s2 = <[path := bytes2]> (files s).
Proof.
  intros path Hkey Hkey' Hp1 Hp2 Hr1 Hr2 Hb1 Hb1' Hd1 Hb2 Hb2' Hd2 Hmk Hopen Hw1 Hw2 s1 s2.
  assert (H1 : files s1 = <[path := bytes1]> (files s)).
  { apply (generate_ai_image_saved_files b64decode w prompt1 key payload1 bytes1 item1 others1);
      assumption. }
  assert (H2 : files s2 = <[path := bytes2]> (files s1)).
  { apply (generate_ai_image_saved_files b64decode w prompt2 key payload2 bytes2 item2 others2);
      assumption. }
  split; [rewrite H1; apply lookup_insert_eq|].
  split; [rewrite H2; apply lookup_insert_eq|].
  rewrite H2, H1. apply insert_insert_eq.
Qed.

Lemma same_second_images_share_one_file_witness :
  let path := py "/home/mia/Pictures/ai_image_20240305_070809.png" in
  let s1 := snd (generate_ai_image b64decode_strict two_images_world (py "a red fox")
                   empty_state) in
  let s2 := snd (generate_ai_image b64decode_strict two_images_world (py "a blue bird") s1) in
  files s1 !! path = Some [Byte.x68; Byte.x69]
  /\ files s2 !! path = Some [Byte.x68; Byte.x69; Byte.x21]
  /\ files s2 = <[path := [Byte.x68; Byte.x69; Byte.x21]]> (files empty_state).
Proof.
  apply (same_second_images_share_one_file b64decode_strict two_images_world (py "tg-test")
           (py "a red fox") (py "a blue bird") (py "aGk=") (py "aGkh")
           [Byte.x68; Byte.x69] [Byte.x68; Byte.x69; Byte.x21]
           {| b64_json := Some (py "aGk="); url := None |}
           {| b64_json := Some (py "aGkh"); url := None |} [] [] empty_state);
    try reflexivity; try discriminate; vm_compute; discriminate.
Defined.

(** X9: an exception of the image service, or of the decoding of the
    first item's base64 text, is answered with the failure sentence ending
    in the exception's text; the service was called once, nothing was
    retried, and no folder, no file was touched. *)
Theorem image_exceptions_are_reported
    (b64decode : pystr -> result (list Byte.byte)) (w : World) (prompt key : pystr)
    (s : State) :
  3 <= len (strip prompt) ->
  getenv w "TOGETHER_API_KEY" = Some key -> key <> [] ->
  (forall e,
      images_reply w (image_client key) (image_order prompt) = Raise e ->
      generate_ai_image b64decode w prompt s
      = (Ok (Str (WARNING_SIGN ++ py " Image generation failed: " ++ exn_str e)),
         record (ImagesGenerate (image_client key) (image_order prompt)) s))
  /\ (forall item others payload e,
      images_reply w (image_client key) (image_order prompt)
        = Ok (Some {| data := Some (item :: others) |}) ->
      b64_json item = Some payload -> payload <> [] ->
      b64decode payload = Raise e ->
      generate_ai_image b64decode w prompt s
      = (Ok (Str (WARNING_SIGN ++ py " Image generation failed: " ++ exn_str e)),
         record (ImagesGenerate (image_client key) (image_order prompt)) s)).
Proof.
  intros Hprompt Hkey Hkey'.
  rewrite (generate_ai_image_called b64decode w prompt key s Hprompt Hkey Hkey').
  split.
  - intros e Hreply. unfold try_except. unfold bind at 1. unfold lift at 1.
    rewrite Hreply. reflexivity.
  - intros item others payload e Hreply Hb64 Hb64' Hdecode.
    unfold try_except. unfold bind at 1. unfold lift at 1. rewrite Hreply. cbv beta iota.
    rewrite Hb64. change (falsy_opt (Some payload)) with (falsy payload).
    rewrite (truthy_key _ Hb64'). cbv beta iota delta [andb negb].
    change (the (Some payload)) with payload.
    unfold bind at 1. unfold lift at 1. rewrite Hdecode. reflexivity.
Qed.

Lemma image_exceptions_are_reported_witness :
  (forall e,
      images_reply image_service_down (image_client (py "tg-test")) (image_order (py "a red fox"))
        = Raise e ->
      generate_ai_image b64decode_strict image_service_down (py "a red fox") empty_state
      = (Ok (Str (WARNING_SIGN ++ py " Image generation failed: " ++ exn_str e)),
         record (ImagesGenerate (image_client (py "tg-test")) (image_order (py "a red fox")))
           empty_state))
  /\ (forall item others payload e,
      images_reply image_service_down (image_client (py "tg-test")) (image_order (py "a red fox"))
        = Ok (Some {| data := Some (item :: others) |}) ->
      b64_json item = Some payload -> payload <> [] ->
      b64decode_strict payload = Raise e ->
      generate_ai_image b64decode_strict image_service_down (py "a red fox") empty_state
      = (Ok (Str (WARNING_SIGN ++ py " Image generation failed: " ++ exn_str e)),
         record (ImagesGenerate (image_client (py "tg-test")) (image_order (py "a red fox")))
           empty_state)).
Proof.
  apply (image_exceptions_are_reported b64decode_strict image_service_down (py "a red fox")
           (py "tg-test") empty_state).
  - vm_compute. discriminate.
  - reflexivity.
  - discriminate.
Defined.



Example generate_ai_image_service_down :
  fst (generate_ai_image b64decode_strict image_service_down (py "a red fox") empty_state)
  = Ok (Str (WARNING_SIGN ++ py " Image generation failed: connection refused")).
Proof. vm_compute. reflexivity. Qed.

(** ** More on the completion tools *)

Lemma first_choice_content_pure {S} (d : jvalue) (s : S) :
  first_choice_content d s = (read_first_choice d, s).
Proof.
  unfold read_first_choice, first_choice_content, bind, lift.
  destruct (getitem_key d "choices") as [choices|e]; [|reflexivity].
  destruct (getitem_0 choices) as [choice|e]; [|reflexivity].
  destruct (getitem_key choice "message") as [message|e]; [|reflexivity].
  destruct (getitem_key message "content") as [content|e]; [|reflexivity].
  destruct (method_strip content); reflexivity.
Qed.

(** The common body of the three completion tools, run. *)
Lemma completion_run (w : World) (headers : list (pystr * pystr)) (payload : chat_payload)
    (timeout : option Z) (prefix : pystr) (s : State) :
  try_except
    (do response <- requests_post w COMPLETIONS_URL headers payload timeout;
     do_ call_raise_for_status response;
     do data <- call_json response;
     do answer <- first_choice_content data;
     ret (Str answer))
    [("Exception"%string, fun e => ret (Str (prefix ++ exn_str e)))] s
  = (Ok (Str (match completion_outcome
                      (http_reply w (completion_request headers payload timeout)) with
              | Ok answer => answer
              | Raise e => prefix ++ exn_str e
              end)),
     record (HttpRequest (completion_request headers payload timeout)) s).
Proof.
  unfold try_except, bind at 1, requests_post.
  fold (completion_request headers payload timeout).
  destruct (http_reply w (completion_request headers payload timeout)) as [response|e];
    [|reflexivity].
  unfold bind at 1, call_raise_for_status, lift, of_option. simpl completion_outcome.
  destruct (raise_for_status response) as [e|]; [reflexivity|].
  unfold bind at 1, call_json, lift.
  destruct (json response) as [d|e]; [|reflexivity].
  unfold bind. rewrite first_choice_content_pure.
  destruct (read_first_choice d); reflexivity.
Qed.

Lemma search_web_run (w : World) (query : pystr) (s : State) :
  falsy_opt (getenv w "OPENROUTER_API_KEY") = false ->
  let request :=
    completion_request
      [(py "Authorization", py "Bearer " ++ the (getenv w "OPENROUTER_API_KEY"));
       (py "Content-Type", py "application/json")]
      {| model := py "tngtech/deepseek-r1t-chimera:free";
         messages := [{| role := py "user"; content := query |}] |}
      None in
  search_web w query s
  = (Ok (Str (match completion_outcome (http_reply w request) with
              | Ok answer => answer
              | Raise e => py "Error talking to OpenRouter AI: " ++ exn_str e
              end)),
     record (HttpRequest request) s).
Proof.
  intros Hkey request. unfold search_web. rewrite Hkey. cbv zeta iota.
  apply (completion_run w _ _ None (py "Error talking to OpenRouter AI: ")).
Qed.

Lemma generate_code_run (w : World) (prompt : pystr) (s : State) :
  falsy_opt (getenv w "OPENROUTER_API_KEY") = false ->
  let request :=
    completion_request
      [(py "Authorization", py "Bearer " ++ the (getenv w "OPENROUTER_API_KEY"));
       (py "Content-Type", py "application/json");
       (py "HTTP-Referer", py "https://your-site.com");
       (py "X-Title", py "MiaAssistant")]
      {| model := py "deepseek/deepseek-r1-0528:free";
         messages :=
           [{| role := py "system";
               content := py "You are a professional senior software engineer. Write complete, well-documented code for the task." |};
            {| role := py "user"; content := prompt |}] |}
      (Some 30) in
  generate_code w prompt s
  = (Ok (Str (match completion_outcome (http_reply w request) with
              | Ok answer => answer
              | Raise e => CROSS_MARK ++ py " Code generation failed: " ++ exn_str e
              end)),
     record (HttpRequest request) s).
Proof.
  intros Hkey request. unfold generate_code. rewrite Hkey. cbv zeta iota.
  apply (completion_run w _ _ (Some 30) (CROSS_MARK ++ py " Code generation failed: ")).
Qed.

Lemma write_essay_run (w : World) (topic : pystr) (words : Z) (s : State) :
  falsy_opt (getenv w "OPENROUTER_API_KEY") = false ->
  let request :=
    completion_request
      [(py "Authorization", py "Bearer " ++ the (getenv w "OPENROUTER_API_KEY"));
       (py "Content-Type", py "application/json");
       (py "HTTP-Referer", py "https://your-site.com");
       (py "X-Title", py "MiaAssistant")]
      {| model := py "mistralai/mixtral-8x7b-instruct";
         messages :=
           [{| role := py "system";
               content :=
                 py "You are a professional academic writer. Write an original, human-sounding essay "
                 ++ py "on the topic provided. Avoid robotic phrasing, vary sentence structures, "
                 ++ py "and use natural transitions. Target a length of " ++ str_of_int words
                 ++ py " words. "
                 ++ py "The tone should mimic a well-read human student or journalist." |};
            {| role := py "user"; content := py "Write an essay on: " ++ topic |}] |}
      None in
  write_essay w topic words s
  = (Ok (Str (match completion_outcome (http_reply w request) with
              | Ok answer => answer
              | Raise e => CROSS_MARK ++ py " Essay generation failed: " ++ exn_str e
              end)),
     record (HttpRequest request) s).
Proof.
  intros Hkey request. unfold write_essay. rewrite Hkey. cbv zeta iota.
  apply (completion_run w _ _ None (CROSS_MARK ++ py " Essay generation failed: ")).
Qed.

Lemma completions_fail_outcome (w : World) (e : exn) (r : http_request) :
  completions_fail w e -> req_method r = POST -> req_url r = COMPLETIONS_URL ->
  completion_outcome (http_reply w r) = Raise e.
Proof.
  intros Hfail Hm Hu.
  destruct (Hfail r Hm Hu) as [-> | (response & -> & [Hs | [Hs Hj]])]; simpl.
  - reflexivity.
  - rewrite Hs. reflexivity.
  - rewrite Hs, Hj. reflexivity.
Qed.

(** X11: with the completion credential set, when the request of
    [search_web], [generate_code] or [write_essay] fails, because the POST
    raises, or the status check raises (an error status), or the body is not
    JSON, the tool answers its own failure sentence ending in the text of
    that exception; it sent the one request and did not retry. *)
Theorem completion_failures_are_reported (w : World) (s : State) (e : exn) :
  falsy_opt (getenv w "OPENROUTER_API_KEY") = false ->
  completions_fail w e ->
  (forall query, exists r,
      search_web w query s
      = (Ok (Str (py "Error talking to OpenRouter AI: " ++ exn_str e)),
         record (HttpRequest r) s))
  /\ (forall prompt, exists r,
      generate_code w prompt s
      = (Ok (Str (CROSS_MARK ++ py " Code generation failed: " ++ exn_str e)),
         record (HttpRequest r) s))
  /\ (forall topic words, exists r,
      write_essay w topic words s
      = (Ok (Str (CROSS_MARK ++ py " Essay generation failed: " ++ exn_str e)),
         record (HttpRequest r) s)).
Proof.
  intros Hkey Hfail. split; [|split].
  - intros query. eexists. rewrite (search_web_run w query s Hkey). cbv zeta.
    rewrite (completions_fail_outcome w e) by first [exact Hfail | reflexivity]. reflexivity.
  - intros prompt. eexists. rewrite (generate_code_run w prompt s Hkey). cbv zeta.
    rewrite (completions_fail_outcome w e) by first [exact Hfail | reflexivity]. reflexivity.
  - intros topic words. eexists. rewrite (write_essay_run w topic words s Hkey). cbv zeta.
    rewrite (completions_fail_outcome w e) by first [exact Hfail | reflexivity]. reflexivity.
Qed.

Lemma completion_failures_are_reported_witness :
  (forall query, exists r,
      search_web rate_limited_world query empty_state
      = (Ok (Str (py "Error talking to OpenRouter AI: " ++ exn_str too_many_requests)),
         record (HttpRequest r) empty_state))
  /\ (forall prompt, exists r,
      generate_code rate_limited_world prompt empty_state
      = (Ok (Str (CROSS_MARK ++ py " Code generation failed: " ++ exn_str too_many_requests)),
         record (HttpRequest r) empty_state))
  /\ (forall topic words, exists r,
      write_essay rate_limited_world topic words empty_state
      = (Ok (Str (CROSS_MARK ++ py " Essay generation failed: " ++ exn_str too_many_requests)),
         record (HttpRequest r) empty_state)).
Proof.
  apply (completion_failures_are_reported rate_limited_world empty_state too_many_requests).
  - reflexivity.
  - intros r _ _. right. eexists. split; [reflexivity|]. left. reflexivity.
Defined.

(** The lookups succeed exactly on a body of the expected shape. *)
Lemma read_first_choice_spec (d : jvalue) (a : pystr) :
  read_first_choice d = Ok a <-> exists answer, completion_body d answer /\ a = strip answer.
Proof.
  split.
  - unfold read_first_choice, first_choice_content, bind, lift.
    destruct d as [| | | | |?|body]; try discriminate. simpl getitem_key.
    destruct (body !! py "choices") as [choices|] eqn:Hc; [|discriminate].
    destruct choices as [| | | |[|? ?]|[|choice others]|?]; try discriminate.
    simpl getitem_0. destruct choice as [| | | | |?|first]; try discriminate.
    simpl getitem_key. destruct (first !! py "message") as [message|] eqn:Hm; [|discriminate].
    destruct message as [| | | | |?|message]; try discriminate.
    simpl getitem_key. destruct (message !! py "content") as [content|] eqn:Ha; [|discriminate].
    destruct content as [| | | |answer|?|?]; try discriminate.
    simpl. intros [= <-]. exists answer. split; [|reflexivity].
    exists body, first, message, others. repeat split; assumption.
  - intros (answer & Hshape & ->).
    unfold read_first_choice. rewrite (first_choice_content_of_shape d answer tt Hshape).
    reflexivity.
Qed.

(** X12: the completion tools accept exactly the bodies of the shape
    [{choices: [{message: {content: <string>}}, ...]}].  For a successful
    response whose decoded body is not of that shape, the lookup that fails
    raises, and each of the three tools answers its failure sentence ending
    in that exception's text: for a body without [choices] the quoted key,
    for an empty list of choices the index error's text.  The body itself is
    never handed back. *)
Theorem malformed_completion_body_is_reported
    (w : World) (s : State) (response : Response) (d : jvalue) :
  falsy_opt (getenv w "OPENROUTER_API_KEY") = false ->
  completions_answer w response ->
  raise_for_status response = None ->
  json response = Ok d ->
  (forall answer, ~ completion_body d answer) ->
  exists e,
    (forall query, exists r,
        search_web w query s
        = (Ok (Str (py "Error talking to OpenRouter AI: " ++ exn_str e)),
           record (HttpRequest r) s))
    /\ (forall prompt, exists r,
        generate_code w prompt s
        = (Ok (Str (CROSS_MARK ++ py " Code generation failed: " ++ exn_str e)),
           record (HttpRequest r) s))
    /\ (forall topic words, exists r,
        write_essay w topic words s
        = (Ok (Str (CROSS_MARK ++ py " Essay generation failed: " ++ exn_str e)),
           record (HttpRequest r) s))
    /\ (forall body, d = JObject body -> body !! py "choices" = None ->
        exn_str e = py "'choices'")
    /\ (forall body, d = JObject body -> body !! py "choices" = Some (JList []) ->
        exn_str e = py "list index out of range").
Proof.
  intros Hkey Hreply Hstatus Hjson Hshape.
  destruct (read_first_choice d) as [a|e] eqn:Hread.
  { exfalso. apply read_first_choice_spec in Hread as (answer & H & _).
    exact (Hshape answer H). }
  assert (Hout : forall r, req_method r = POST -> req_url r = COMPLETIONS_URL ->
                           completion_outcome (http_reply w r) = Raise e).
  { intros r Hm Hu. rewrite (Hreply r Hm Hu). simpl. rewrite Hstatus, Hjson. exact Hread. }
  exists e. split; [|split; [|split; [|split]]].
  - intros query. eexists. rewrite (search_web_run w query s Hkey). cbv zeta.
    rewrite Hout by reflexivity. reflexivity.
  - intros prompt. eexists. rewrite (generate_code_run w prompt s Hkey). cbv zeta.
    rewrite Hout by reflexivity. reflexivity.
  - intros topic words. eexists. rewrite (write_essay_run w topic words s Hkey). cbv zeta.
    rewrite Hout by reflexivity. reflexivity.
  - intros body -> Hc. revert Hread.
    unfold read_first_choice, first_choice_content, bind, lift. simpl getitem_key.
    rewrite Hc. intros [= <-]. reflexivity.
  - intros body -> Hc. revert Hread.
    unfold read_first_choice, first_choice_content, bind, lift. simpl getitem_key.
    rewrite Hc. intros [= <-]. reflexivity.
Qed.

Lemma malformed_completion_body_is_reported_witness :
  exists e,
    (forall query, exists r,
        search_web no_choice_world query empty_state
        = (Ok (Str (py "Error talking to OpenRouter AI: " ++ exn_str e)),
           record (HttpRequest r) empty_state))
    /\ (forall prompt, exists r,
        generate_code no_choice_world prompt empty_state
        = (Ok (Str (CROSS_MARK ++ py " Code generation failed: " ++ exn_str e)),
           record (HttpRequest r) empty_state))
    /\ (forall topic words, exists r,
        write_essay no_choice_world topic words empty_state
        = (Ok (Str (CROSS_MARK ++ py " Essay generation failed: " ++ exn_str e)),
           record (HttpRequest r) empty_state))
    /\ (forall body, JObject {[ py "choices" := JList [] ]} = JObject body ->
        body !! py "choices" = None -> exn_str e = py "'choices'")
    /\ (forall body, JObject {[ py "choices" := JList [] ]} = JObject body ->
        body !! py "choices" = Some (JList []) ->
        exn_str e = py "list index out of range").
Proof.
  apply (malformed_completion_body_is_reported no_choice_world empty_state
           {| status_code := 200; text := []; raise_for_status := None;
              json := Ok (JObject {[ py "choices" := JList [] ]}) |}
           (JObject {[ py "choices" := JList [] ]})).
  - reflexivity.
  - intros r _ _. reflexivity.
  - reflexivity.
  - reflexivity.
  - intros answer (body & first & message & others & [= <-] & Hc & _).
    rewrite lookup_singleton_eq in Hc. discriminate Hc.
Defined.

(** ** All tools together *)

Lemma truthy_opt (o : option pystr) :
  falsy_opt o = false -> exists k, o = Some k /\ k <> [] /\ the o = k.
Proof.
  destruct o as [[|c k]|]; try discriminate. intros _.
  exists (c :: k). repeat split. discriminate.
Qed.


(** The events of each tool's run, by tool. *)
Lemma get_weather_issued (w : World) (city : pystr) (s : State) :
  issued (get_weather w city) s = [HttpRequest (weather_request city)].
Proof. eapply issued_record; [apply get_weather_run | reflexivity]. Qed.

Lemma completion_tool_issued (w : World) (c : tool_call) (s : State)
    (b64decode : pystr -> result (list Byte.byte)) :
  required_credentials c = ["OPENROUTER_API_KEY"%string] ->
  issued (run_tool b64decode w c) s = []
  \/ exists key headers payload timeout,
       getenv w "OPENROUTER_API_KEY" = Some key /\ key <> []
       /\ issued (run_tool b64decode w c) s
          = [HttpRequest
               (completion_request
                  ((py "Authorization", py "Bearer " ++ key)
                   :: (py "Content-Type", py "application/json") :: headers)
                  payload timeout)].
Proof.
  intros Hc. destruct (falsy_opt (getenv w "OPENROUTER_API_KEY")) eqn:Hkey.
  - left. destruct c; try discriminate Hc; simpl run_tool; eapply issued_nothing.
    + apply search_web_without_key. exact Hkey.
    + apply generate_code_without_key. exact Hkey.
    + apply write_essay_without_key. exact Hkey.
  - right. destruct (truthy_opt _ Hkey) as (key & Hk & Hk' & Hthe). exists key.
    destruct c; try discriminate Hc; simpl run_tool; eexists _, _, _;
      (split; [exact Hk|]); (split; [exact Hk'|]); rewrite <- Hthe.
    + eapply issued_record; [apply (search_web_run w query s Hkey) | reflexivity].
    + eapply issued_record; [apply (generate_code_run w prompt s Hkey) | reflexivity].
    + eapply issued_record; [apply (write_essay_run w topic _ s Hkey) | reflexivity].
Qed.

(** X13: the HTTP requests of the tools go to two places only.  A request
    is either the GET of the weather lookup, which carries no header and no
    body (so no credential reaches the weather service), or a POST to the
    completion endpoint with a JSON content type and the header
    [Authorization: Bearer <key>], where the key is the non-empty value of
    OPENROUTER_API_KEY.  The mail and image tools send no HTTP request of
    their own. *)
Theorem http_requests_go_to_two_endpoints
    (b64decode : pystr -> result (list Byte.byte)) (w : World) (c : tool_call) (s : State)
    (r : http_request) :
  In (HttpRequest r) (issued (run_tool b64decode w c) s) ->
  request_allowed w r.
Proof.
  assert (Hcompletion : required_credentials c = ["OPENROUTER_API_KEY"%string] ->
            In (HttpRequest r) (issued (run_tool b64decode w c) s) -> request_allowed w r).
  { intros Hc Hin.
    destruct (completion_tool_issued w c s b64decode Hc)
      as [H | (key & headers & payload & timeout & Hk & Hk' & H)]; rewrite H in Hin.
    - destruct Hin.
    - destruct Hin as [Hin|[]]. injection Hin as Hin. subst r.
      right. split; [reflexivity|]. split; [reflexivity|].
      exists key. split; [exact Hk|]. split; [exact Hk'|].
      split; [left; reflexivity | right; left; reflexivity]. }
  destruct c; try (apply Hcompletion; reflexivity); simpl run_tool; intros Hin.
  - rewrite get_weather_issued in Hin. destruct Hin as [Hin|[]]. injection Hin as Hin. subst r.
    left. split; [reflexivity|]. split; [exists city; reflexivity|]. split; reflexivity.
  - rewrite send_email_issued in Hin.
    destruct (_ || _); [destruct Hin|].
    apply in_map_iff in Hin as (x & Hx & _). discriminate Hx.
  - pose proof (generate_ai_image_effects b64decode w prompt s) as H.
    inversion H as [Hev Hf|key Hkey Hkey' Hlen Hev Hf
                   |key payload item others bytes steps after Hkey Hkey' Hlen Hreply Hb64 Hb64'
                      Hdecode Hsave Hev Hf];
      rewrite <- Hev in Hin.
    + destruct Hin.
    + destruct Hin as [Hin|[]]. discriminate Hin.
    + destruct Hin as [Hin|Hin]; [discriminate Hin|].
      destruct Hsave; simpl in Hin;
        repeat (destruct Hin as [Hin|Hin]; [discriminate Hin|]); destruct Hin.
Qed.

Lemma http_requests_go_to_two_endpoints_witness :
  request_allowed paris_world
    (completion_request
       [(py "Authorization", py "Bearer " ++ py "sk-or-test");
        (py "Content-Type", py "application/json")]
       {| model := py "tngtech/deepseek-r1t-chimera:free";
          messages := [{| role := py "user"; content := py "capital of France" |}] |}
       None).
Proof.
  apply (http_requests_go_to_two_endpoints b64decode_strict paris_world
           (call_search_web (py "capital of France")) empty_state).
  vm_compute. left. reflexivity.
Defined.


Lemma filter_touches_files_mail (calls : list smtp_call) :
  filter touches_files (List.map SmtpCall calls) = [].
Proof.
  induction calls as [|c calls IH]; [reflexivity|].
  simpl List.map. rewrite filter_cons_False by (intros H; exact H). exact IH.
Qed.

(** X15: only the image tool touches the file system.  A run of
    [get_weather], [search_web], [send_email], [generate_code] or
    [write_essay] makes no folder, opens and writes no file, and leaves every
    file as it was, whatever the outside answers. *)
Theorem only_the_image_tool_touches_files
    (b64decode : pystr -> result (list Byte.byte)) (w : World) (c : tool_call) (s : State) :
  is_image_call c = false ->
  files (snd (run_tool b64decode w c s)) = files s
  /\ filter touches_files (issued (run_tool b64decode w c) s) = [].
Proof.
  intros Hc.
  assert (Hcompletion : required_credentials c = ["OPENROUTER_API_KEY"%string] ->
            files (snd (run_tool b64decode w c s)) = files s
            /\ filter touches_files (issued (run_tool b64decode w c) s) = []).
  { intros Hreq. split.
    - destruct (falsy_opt (getenv w "OPENROUTER_API_KEY")) eqn:Hkey;
        destruct c; try discriminate Hreq; simpl run_tool.
      + rewrite (search_web_without_key w query s Hkey). reflexivity.
      + rewrite (generate_code_without_key w prompt s Hkey). reflexivity.
      + rewrite (write_essay_without_key w topic _ s Hkey). reflexivity.
      + rewrite (search_web_run w query s Hkey). reflexivity.
      + rewrite (generate_code_run w prompt s Hkey). reflexivity.
      + rewrite (write_essay_run w topic _ s Hkey). reflexivity.
    - destruct (completion_tool_issued w c s b64decode Hreq)
        as [H | (key & headers & payload & timeout & _ & _ & H)]; rewrite H; reflexivity. }
  destruct c; try discriminate Hc; try (apply Hcompletion; reflexivity); simpl run_tool.
  - rewrite get_weather_issued, get_weather_run. split; reflexivity.
  - rewrite send_email_issued. split.
    + destruct (falsy_opt (getenv w "GMAIL_USER")) eqn:Hu;
        [|destruct (falsy_opt (getenv w "GMAIL_APP_PASSWORD")) eqn:Hp].
      * rewrite send_email_without_credentials by (left; exact Hu). reflexivity.
      * rewrite send_email_without_credentials by (right; exact Hp). reflexivity.
      * apply send_email_session; assumption.
    + destruct (_ || _); [reflexivity | apply filter_touches_files_mail].
Qed.

Lemma only_the_image_tool_touches_files_witness :
  files (snd (run_tool b64decode_strict login_refused
                (call_send_email (py "boss@example.com") (py "Hello") (py "Good morning.") None)
                empty_state)) = files empty_state
  /\ filter touches_files
       (issued (run_tool b64decode_strict login_refused
                  (call_send_email (py "boss@example.com") (py "Hello") (py "Good morning.")
                     None)) empty_state) = [].
Proof.
  apply (only_the_image_tool_touches_files b64decode_strict login_refused
           (call_send_email (py "boss@example.com") (py "Hello") (py "Good morning.") None)
           empty_state).
  reflexivity.
Defined.

Lemma strip_blank (s : pystr) : blank s -> strip s = [].
Proof.
  intros H. unfold strip.
  replace (lstrip s) with (@nil N); [reflexivity|].
  induction H as [|c s Hc _ IH]; simpl; [reflexivity|]. rewrite Hc. exact IH.
Qed.

(** X16: a success answer is what the service sent, stripped: it never
    starts or ends with whitespace.  A 200 weather body, or a completion
    content, made of whitespace only therefore comes back as the empty
    string, as a success and without any error sentence. *)
Theorem success_answers_are_stripped (w : World) (s : State) (response : Response) :
  (forall city,
      http_reply w (weather_request city) = Ok response ->
      status_code response = 200 ->
      exists a,
        get_weather w city s = (Ok (Str a), record (HttpRequest (weather_request city)) s)
        /\ lstrip a = a /\ rstrip a = a
        /\ (blank (text response) -> a = []))
  /\ (forall d content,
      falsy_opt (getenv w "OPENROUTER_API_KEY") = false ->
      completions_answer w response ->
      raise_for_status response = None ->
      json response = Ok d ->
      completion_body d content ->
      exists a,
        (forall query, fst (search_web w query s) = Ok (Str a))
        /\ (forall prompt, fst (generate_code w prompt s) = Ok (Str a))
        /\ (forall topic words, fst (write_essay w topic words s) = Ok (Str a))
        /\ lstrip a = a /\ rstrip a = a
        /\ (blank content -> a = [])).
Proof.
  split.
  - intros city Hreply Hstatus. exists (strip (text response)).
    rewrite get_weather_run, Hreply. apply Z.eqb_eq in Hstatus. rewrite Hstatus.
    destruct (strip_clean (text response)) as (Hl & Hr & _).
    repeat split; try assumption. apply strip_blank.
  - intros d content Hkey Hreply Hstatus Hjson Hshape. exists (strip content).
    assert (Hout : forall r, req_method r = POST -> req_url r = COMPLETIONS_URL ->
                             completion_outcome (http_reply w r) = Ok (strip content)).
    { intros r Hm Hu. rewrite (Hreply r Hm Hu). simpl. rewrite Hstatus, Hjson.
      apply read_first_choice_spec. exists content. split; [exact Hshape | reflexivity]. }
    destruct (strip_clean content) as (Hl & Hr & _).
    split; [|split; [|split; [|split; [|split]]]]; try assumption.
    + intros query. rewrite (search_web_run w query s Hkey). cbv zeta.
      rewrite Hout by reflexivity. reflexivity.
    + intros prompt. rewrite (generate_code_run w prompt s Hkey). cbv zeta.
      rewrite Hout by reflexivity. reflexivity.
    + intros topic words. rewrite (write_essay_run w topic words s Hkey). cbv zeta.
      rewrite Hout by reflexivity. reflexivity.
    + apply strip_blank.
Qed.

(** A blank weather report, run. *)
Example get_weather_blank :
  fst (get_weather blank_weather_world (py "London") empty_state) = Ok (Str []).
Proof. reflexivity. Qed.

(** ** File names and the clock *)

Lemma zero_padded_length (width : nat) (n : Z) : length (zero_padded width n) = width.
Proof.
  revert n. induction width as [|k IH]; intros n; [reflexivity|].
  simpl zero_padded. rewrite length_app, IH. simpl. lia.
Qed.

Lemma zero_padded_inj (width : nat) (a b : Z) :
  0 <= a < 10 ^ Z.of_nat width -> 0 <= b < 10 ^ Z.of_nat width ->
  zero_padded width a = zero_padded width b -> a = b.
Proof.
  intros Ha Hb H.
  rewrite <- (zero_padded_reads_back width a Ha), <- (zero_padded_reads_back width b Hb), H.
  reflexivity.
Qed.

(** X17: the image's file name tells the clock reading it was built from:
    two readings within the ranges of a [datetime], of a year with four
    digits, that give the same name ai_image_<stamp>.png agree in year,
    month, day, hour, minute and second.  Names can therefore collide only
    within one second. *)
Theorem image_names_differ_across_seconds (t1 t2 : datetime) :
  valid_datetime t1 -> valid_datetime t2 ->
  1000 <= year t1 -> 1000 <= year t2 ->
  py "ai_image_" ++ strftime t1 (py "%Y%m%d_%H%M%S") ++ py ".png"
  = py "ai_image_" ++ strftime t2 (py "%Y%m%d_%H%M%S") ++ py ".png" ->
  t1 = t2.
Proof.
  intros (Hy1 & Hm1 & Hd1 & HH1 & HM1 & HS1) (Hy2 & Hm2 & Hd2 & HH2 & HM2 & HS2) _ _ Hname.
  apply app_inv_head in Hname. apply app_inv_tail in Hname.
  rewrite !strftime_stamp in Hname.
  apply app_inj_1 in Hname as [Hy Hname]; [|rewrite !zero_padded_length; reflexivity].
  apply app_inj_1 in Hname as [Hm Hname]; [|rewrite !zero_padded_length; reflexivity].
  apply app_inj_1 in Hname as [Hd Hname]; [|rewrite !zero_padded_length; reflexivity].
  apply app_inv_head in Hname.
  apply app_inj_1 in Hname as [HH Hname]; [|rewrite !zero_padded_length; reflexivity].
  apply app_inj_1 in Hname as [HM HS]; [|rewrite !zero_padded_length; reflexivity].
  apply zero_padded_inj in Hy; [|simpl; lia ..].
  apply zero_padded_inj in Hm; [|simpl; lia ..].
  apply zero_padded_inj in Hd; [|simpl; lia ..].
  apply zero_padded_inj in HH; [|simpl; lia ..].
  apply zero_padded_inj in HM; [|simpl; lia ..].
  apply zero_padded_inj in HS; [|simpl; lia ..].
  destruct t1, t2. simpl in *. congruence.
Qed.

Lemma image_names_differ_across_seconds_witness : now offline = now base64_world.
Proof.
  apply (image_names_differ_across_seconds (now offline) (now base64_world)).
  - unfold valid_datetime. simpl. lia.
  - unfold valid_datetime. simpl. lia.
  - simpl. lia.
  - simpl. lia.
  - reflexivity.
Defined.
